(** * Aronia Pure backend: catalogue listing and checkout

    A shallow embedding of [src/main.py] ([list_products], [create_order])
    and of the data contracts of [src/schemas.py] ([AroniaProduct],
    [OrderItem], [Order]).

    Python values are an inductive type, Python [float] is the kernel's
    binary64 ([PrimFloat.float]), Python [int] is [Z].  A handler is a
    function of the store collaborator that returns what the Python
    function returns or raises, together with the store calls it made. *)

From Stdlib Require Import ZArith List Ascii String Bool Lia QArith Qabs.
From Stdlib Require Import Floats.
Import ListNotations.

Set Warnings "-inexact-float,-register-all".

Local Open Scope string_scope.
Local Open Scope Z_scope.

(** ** Python values, exceptions and builtins *)

Module Py.

(** Exceptions the handlers meet.  Every one is a subclass of Python's
    [Exception], so [except Exception] catches each of them. *)
Inductive exn : Type :=
| HTTPException (status_code : Z) (detail : string)
| TypeError
| ValueError
| OverflowError
| Exception (msg : string).

(** What evaluating a Python expression gives: a value, or a raised
    exception. *)
Inductive outcome (A : Type) : Type :=
| Return (a : A)
| Raise (e : exn).

Arguments Return {A} a.
Arguments Raise {A} e.

Definition bind {A B : Type} (m : outcome A) (k : A -> outcome B) : outcome B :=
  match m with
  | Return a => k a
  | Raise e => Raise e
  end.

Notation "x <- m ;; k" := (bind m (fun x => k))
  (at level 61, m at next level, right associativity).

(** The values a decoded JSON body or a stored document holds. *)
Inductive pyval : Type :=
| VNone
| VBool (b : bool)
| VInt (z : Z)
| VFloat (f : float)
| VStr (s : string)
| VList (l : list pyval)
| VDict (d : list (string * pyval))
| VObjectId (hex : string).

(** A [dict] with string keys, in insertion order. *)
Definition dict : Type := list (string * pyval).

(** [d.get(key)] without a default: [None] of [option] when the key is
    absent. *)
Fixpoint lookup (key : string) (d : dict) : option pyval :=
  match d with
  | [] => None
  | (k, v) :: rest => if String.eqb k key then Some v else lookup key rest
  end.

(** [d.get(key)]: Python's [None] when the key is absent. *)
Definition get (d : dict) (key : string) : pyval :=
  match lookup key d with
  | Some v => v
  | None => VNone
  end.

(** [d.get(key, default)]. *)
Definition get_default (d : dict) (key : string) (default : pyval) : pyval :=
  match lookup key d with
  | Some v => v
  | None => default
  end.

(** [d[key] = v]: the value is replaced in place when the key is there,
    and appended otherwise. *)
Fixpoint setitem (d : dict) (key : string) (v : pyval) : dict :=
  match d with
  | [] => [(key, v)]
  | (k, w) :: rest =>
      if String.eqb k key then (k, v) :: rest else (k, w) :: setitem rest key v
  end.

(** *** binary64 *)

(** The binary64 value nearest to an integer (ties to even); infinite
    when the integer is beyond the binary64 range. *)
Definition float_of_Z (z : Z) : float :=
  SF2Prim (binary_normalize prec emax z 0 false).

(** Conversion of a Python [int] to [float]: [OverflowError] when the
    integer is too large. *)
Definition float_of_int (z : Z) : outcome float :=
  let f := float_of_Z z in
  if is_infinity f then Raise OverflowError else Return f.

(** [int(f)] on a float: truncation towards zero; [ValueError] on NaN and
    [OverflowError] on an infinity. *)
Definition int_of_float (f : float) : outcome Z :=
  match Prim2SF f with
  | S754_zero _ => Return 0
  | S754_infinity _ => Raise OverflowError
  | S754_nan => Raise ValueError
  | S754_finite s m e =>
      let a := if 0 <=? e then Z.pos m * 2 ^ e else Z.pos m / 2 ^ (- e) in
      Return (if s then - a else a)
  end.

(** The exact rational a float stands for; [None] for NaN and the
    infinities. *)
Definition Q_of_float (f : float) : option Q :=
  match Prim2SF f with
  | S754_zero _ => Some 0%Q
  | S754_finite s m e =>
      let a := (inject_Z (Z.pos m) * Qpower 2 e)%Q in
      Some (if s then Qopp a else a)
  | _ => None
  end.

(** *** The numeric tower: [int] and [float] *)

Inductive num : Type :=
| NInt (z : Z)
| NFloat (f : float).

Definition to_float (n : num) : outcome float :=
  match n with
  | NInt z => float_of_int z
  | NFloat f => Return f
  end.

(** [a + b]: exact on two ints, binary64 otherwise. *)
Definition py_add (a b : num) : outcome num :=
  match a, b with
  | NInt x, NInt y => Return (NInt (x + y))
  | _, _ => x <- to_float a ;; y <- to_float b ;; Return (NFloat (x + y)%float)
  end.

(** [a * b]. *)
Definition py_mul (a b : num) : outcome num :=
  match a, b with
  | NInt x, NInt y => Return (NInt (x * y))
  | _, _ => x <- to_float a ;; y <- to_float b ;; Return (NFloat (x * y)%float)
  end.

(** [sum(gen)], continued from an accumulator: the elements of the
    generator are evaluated and added from left to right; the first
    exception ends the sum. *)
Fixpoint sum_from (acc : num) (gen : list (outcome num)) : outcome num :=
  match gen with
  | [] => Return acc
  | x :: rest => v <- x ;; acc' <- py_add acc v ;; sum_from acc' rest
  end.

(** [sum(gen)] as the language defines it: the start value is the int
    [0], and the items are added to it from left to right. *)
Definition py_sum (gen : list (outcome num)) : outcome num :=
  sum_from (NInt 0) gen.

(** The float loop of CPython's [sum] from version 3.12 on, which keeps
    a running compensation [c] (Neumaier) beside the partial sum [f] and
    adds it at the end.  The handlers are modelled with [py_sum], the
    left-to-right sum the language defines; this loop is kept to compare
    the two on concrete orders. *)
Fixpoint sum_compensated (f c : float) (xs : list float) : float :=
  match xs with
  | [] => if negb (c =? 0)%float && is_finite c then (f + c)%float else f
  | x :: rest =>
      let t := (f + x)%float in
      let c' :=
        if (abs x <=? abs f)%float then (c + ((f - t) + x))%float
        else (c + ((x - t) + f))%float in
      sum_compensated t c' rest
  end.

Definition val_of_num (n : num) : pyval :=
  match n with
  | NInt z => VInt z
  | NFloat f => VFloat f
  end.

(** Truth value of a sequence: [not items] is [falsy items]. *)
Definition falsy {A : Type} (l : list A) : bool :=
  match l with
  | [] => true
  | _ :: _ => false
  end.

(** *** Builtins that read a string

    The interpreter's and the validation library's readings of a string
    are not defined by this repository; the handlers are parametric in
    them. *)
Record runtime : Type := {
  (** [float(s)]; [None] stands for [ValueError]. *)
  float_of_str : string -> option float;
  (** [int(s)]; [None] stands for [ValueError]. *)
  int_of_str : string -> option Z;
  (** The validation library's lax reading, for a [float] field, of a
      value that is neither a float nor an int (a numeric string, say). *)
  lax_float_other : pyval -> option float;
  (** The validation library's lax reading, for an [int] field, of a
      value that is not an int (a float without fraction, a numeric
      string). *)
  lax_int_other : pyval -> option Z;
  (** [EmailStr]: the normalised address, or [None] when the string is
      not a well-formed address. *)
  validate_email : string -> option string
}.

Section Builtins.

Variable rt : runtime.

(** [float(v)]. *)
Definition py_float (v : pyval) : outcome float :=
  match v with
  | VBool b => Return (if b then 1 else 0)%float
  | VInt z => float_of_int z
  | VFloat f => Return f
  | VStr s =>
      match float_of_str rt s with
      | Some f => Return f
      | None => Raise ValueError
      end
  | VNone | VList _ | VDict _ | VObjectId _ => Raise TypeError
  end.

(** [int(v)]. *)
Definition py_int (v : pyval) : outcome Z :=
  match v with
  | VBool b => Return (if b then 1 else 0)
  | VInt z => Return z
  | VFloat f => int_of_float f
  | VStr s =>
      match int_of_str rt s with
      | Some z => Return z
      | None => Raise ValueError
      end
  | VNone | VList _ | VDict _ | VObjectId _ => Raise TypeError
  end.

End Builtins.

(** [bool(v)]. *)
Definition py_bool (v : pyval) : bool :=
  match v with
  | VNone => false
  | VBool b => b
  | VInt z => negb (z =? 0)
  | VFloat f => negb (f =? 0)%float
  | VStr s => negb (String.eqb s "")
  | VList l => negb (falsy l)
  | VDict d => negb (falsy d)
  | VObjectId _ => true
  end.

End Py.

(** ** The data contracts of [schemas.py] *)

Module Schemas.

Import Py.

(** Readings of an input value for a field of a given type, in the
    library's default (lax) mode.  [None] stands for a validation error.
    A [str] field takes a string and nothing else. *)
Definition lax_str (v : pyval) : option string :=
  match v with
  | VStr s => Some s
  | _ => None
  end.

Section Validation.

Variable rt : runtime.

(** A [float] field takes a float as it is and an int converted;
    what it makes of any other value is the library's. *)
Definition lax_float (v : pyval) : option float :=
  match v with
  | VFloat f => Some f
  | VInt z =>
      match float_of_int z with
      | Return f => Some f
      | Raise _ => None
      end
  | _ => lax_float_other rt v
  end.

(** An [int] field takes an int as it is; what it makes of any other
    value is the library's. *)
Definition lax_int (v : pyval) : option Z :=
  match v with
  | VInt z => Some z
  | _ => lax_int_other rt v
  end.

(** A required field: absent is an error. *)
Definition required {A : Type} (read : pyval -> option A) (d : dict) (key : string)
  : option A :=
  match lookup key d with
  | Some v => read v
  | None => None
  end.

(** A field with a default: the default is taken as it is (it is not
    validated), a given value is read. *)
Definition with_default {A : Type} (read : pyval -> option A) (d : dict)
    (key : string) (default : A) : option A :=
  match lookup key d with
  | Some v => read v
  | None => Some default
  end.

(** [Optional[str]]. *)
Definition optional_str (v : pyval) : option (option string) :=
  match v with
  | VNone => Some None
  | VStr s => Some (Some s)
  | _ => None
  end.

(** [EmailStr]: a string that is a well-formed address. *)
Definition email_str (v : pyval) : option string :=
  match v with
  | VStr s => validate_email rt s
  | _ => None
  end.

(** An [int] constrained by [ge] and [le]. *)
Definition int_between (lo hi : Z) (v : pyval) : option Z :=
  match lax_int v with
  | Some z => if (lo <=? z) && (z <=? hi) then Some z else None
  | None => None
  end.

End Validation.

(** [class AroniaProduct(BaseModel)] *)
Module AroniaProduct.

Record t : Type := mk {
  title : string;
  description : string;
  price : float;
  category : string;
  in_stock : bool;
  image_url : option string;
  sku : string;
  volume_ml : Z
}.

(** [AroniaProduct()]: every field at its default. *)
Definition default : t := {|
  title := "Aronia Pure - 100% Chokeberry Juice";
  description :=
    "Cold-pressed from fresh aronia berries, unfiltered to retain natural goodness. Tart, rich, and invigorating.";
  price := 12.90%float;
  category := "Beverages";
  in_stock := true;
  image_url :=
    Some "https://images.unsplash.com/photo-1626595424320-b872d5efaa11?auto=format&fit=crop&w=1600&q=80";
  sku := "ARONIA-750ML";
  volume_ml := 750
|}.

(** The constraints [ge=0] on [price] and [ge=50] on [volume_ml]. *)
Definition ok (p : t) : bool :=
  (0 <=? price p)%float && (50 <=? volume_ml p).

Definition model_dump (p : t) : dict :=
  [ ("title", VStr (title p));
    ("description", VStr (description p));
    ("price", VFloat (price p));
    ("category", VStr (category p));
    ("in_stock", VBool (in_stock p));
    ("image_url", match image_url p with Some u => VStr u | None => VNone end);
    ("sku", VStr (sku p));
    ("volume_ml", VInt (volume_ml p)) ].

End AroniaProduct.

(** [class OrderItem(BaseModel)] *)
Module OrderItem.

Record t : Type := mk {
  product_sku : string;
  title : string;
  unit_price : float;
  quantity : Z
}.

(** The constraint [Field(1, ge=1, le=24)] on [quantity]. *)
Definition quantity_ok (q : Z) : bool := (1 <=? q) && (q <=? 24).

(** The invariant of an instance: what validation establishes. *)
Definition ok (item : t) : bool := quantity_ok (quantity item).

(** Validation of one element of [items]. *)
Definition validate (rt : runtime) (v : pyval) : option t :=
  match v with
  | VDict d =>
      match required lax_str d "product_sku",
            required lax_str d "title",
            required (lax_float rt) d "unit_price",
            with_default (int_between rt 1 24) d "quantity" 1 with
      | Some s, Some t, Some p, Some q => Some (mk s t p q)
      | _, _, _, _ => None
      end
  | _ => None
  end.

Definition model_dump (item : t) : dict :=
  [ ("product_sku", VStr (product_sku item));
    ("title", VStr (title item));
    ("unit_price", VFloat (unit_price item));
    ("quantity", VInt (quantity item)) ].

End OrderItem.

(** [class Order(BaseModel)] *)
Module Order.

Record t : Type := mk {
  customer_name : string;
  customer_email : string;
  shipping_address : string;
  items : list OrderItem.t;
  notes : option string
}.

Definition ok (order : t) : bool := forallb OrderItem.ok (items order).

(** [List[OrderItem]]: every element validates. *)
Fixpoint validate_items (rt : runtime) (l : list pyval) : option (list OrderItem.t) :=
  match l with
  | [] => Some []
  | v :: rest =>
      match OrderItem.validate rt v, validate_items rt rest with
      | Some item, Some items => Some (item :: items)
      | _, _ => None
      end
  end.

Definition list_of (rt : runtime) (v : pyval) : option (list OrderItem.t) :=
  match v with
  | VList l => validate_items rt l
  | _ => None
  end.

(** Validation of the request body.  Keys that name no field are
    ignored. *)
Definition validate (rt : runtime) (body : pyval) : option t :=
  match body with
  | VDict d =>
      match required lax_str d "customer_name",
            required (email_str rt) d "customer_email",
            required lax_str d "shipping_address",
            required (list_of rt) d "items",
            with_default optional_str d "notes" None with
      | Some n, Some e, Some a, Some l, Some o => Some (mk n e a l o)
      | _, _, _, _, _ => None
      end
  | _ => None
  end.

Definition model_dump (order : t) : dict :=
  [ ("customer_name", VStr (customer_name order));
    ("customer_email", VStr (customer_email order));
    ("shipping_address", VStr (shipping_address order));
    ("items", VList (map (fun item => VDict (OrderItem.model_dump item)) (items order)));
    ("notes", match notes order with Some s => VStr s | None => VNone end) ].

End Order.

End Schemas.

(** ** The handlers of [main.py] *)

Module Main.

Import Py Schemas.

(** *** The store collaborator

    [database.py] is not part of the sources: [get_documents] and
    [create_document] are taken as they are imported, each call either
    returning or raising.  A handler makes at most one query followed by
    at most one insert, so the answers of a store are given per call. *)

(** What [create_document] is handed: a model instance or a dict. *)
Inductive store_data : Type :=
| ModelData (p : AroniaProduct.t)
| DictData (d : dict).

Record store : Type := {
  get_documents : string -> dict -> outcome (list dict);
  create_document : string -> store_data -> outcome string
}.

(** A call made to the store. *)
Inductive call : Type :=
| GetDocuments (collection_name : string) (filter_dict : dict)
| CreateDocument (collection_name : string) (data : store_data).

(** A handler body: given the store, its outcome and the calls it made,
    in order. *)
Definition M (A : Type) : Type := store -> outcome A * list call.

Definition ret {A : Type} (a : A) : M A := fun _ => (Return a, []).

Definition raise {A : Type} (e : exn) : M A := fun _ => (Raise e, []).

Definition lift {A : Type} (o : outcome A) : M A := fun _ => (o, []).

Definition mbind {A B : Type} (m : M A) (k : A -> M B) : M B :=
  fun st =>
    match m st with
    | (Return a, log) => let (r, log') := k a st in (r, (log ++ log')%list)
    | (Raise e, log) => (Raise e, log)
    end.

Notation "x <~ m ;; k" := (mbind m (fun x => k))
  (at level 61, m at next level, right associativity).

(** [try: body / except Exception: handler]. *)
Definition try_except {A : Type} (body : M A) (handler : M A) : M A :=
  fun st =>
    match body st with
    | (Return a, log) => (Return a, log)
    | (Raise _, log) => let (r, log') := handler st in (r, (log ++ log')%list)
    end.

Definition call_get_documents (collection_name : string) (filter_dict : dict)
  : M (list dict) :=
  fun st => (get_documents st collection_name filter_dict,
             [GetDocuments collection_name filter_dict]).

Definition call_create_document (collection_name : string) (data : store_data)
  : M string :=
  fun st => (create_document st collection_name data,
             [CreateDocument collection_name data]).

(** A list comprehension whose element expression may raise. *)
Fixpoint comprehension {A B : Type} (f : A -> outcome B) (l : list A)
  : outcome (list B) :=
  match l with
  | [] => Return []
  | x :: rest => y <- f x ;; ys <- comprehension f rest ;; Return (y :: ys)
  end.

Section Handlers.

Variable rt : runtime.

(** The dict built for one stored document [i] (main.py, lines 48-57);
    the values are evaluated in the order of the keys. *)
Definition product_dict (i : dict) : outcome dict :=
  price <- py_float rt (get_default i "price" (VInt 0)) ;;
  volume_ml <- py_int rt (get_default i "volume_ml" (VInt 750)) ;;
  Return
    [ ("title", get i "title");
      ("description", get i "description");
      ("price", VFloat price);
      ("category", get i "category");
      ("in_stock", VBool (py_bool (get_default i "in_stock" (VBool true))));
      ("image_url", get i "image_url");
      ("sku", get i "sku");
      ("volume_ml", VInt volume_ml) ].

(** [def list_products()] *)
Definition list_products : M (list dict) :=
  items <~ try_except (call_get_documents "aroniaproduct" []) (ret []) ;;
  if falsy items then
    let default := AroniaProduct.default in
    try_except
      (_ <~ call_create_document "aroniaproduct" (ModelData default) ;;
       ret [AroniaProduct.model_dump default])
      (ret [AroniaProduct.model_dump default])
  else
    lift (comprehension product_dict items).

End Handlers.

(** [item.unit_price * item.quantity] *)
Definition line_total (item : OrderItem.t) : outcome num :=
  py_mul (NFloat (OrderItem.unit_price item)) (NInt (OrderItem.quantity item)).

(** The dict [create_order] returns. *)
Definition order_response (order_id : pyval) (total : num) : dict :=
  [ ("status", VStr "ok");
    ("order_id", order_id);
    ("total_amount", val_of_num total) ].

(** [payload = order.model_dump()] followed by
    [payload["total_amount"] = float(total)]. *)
Definition order_payload (order : Order.t) (total_amount : float) : dict :=
  setitem (Order.model_dump order) "total_amount" (VFloat total_amount).

(** [def create_order(order: Order)] *)
Definition create_order (order : Order.t) : M dict :=
  if falsy (Order.items order) then
    raise (HTTPException 400 "Order must contain at least one item")
  else
    total <~ lift (py_sum (map line_total (Order.items order))) ;;
    total_amount <~ lift (to_float total) ;;
    let payload := order_payload order total_amount in
    try_except
      (order_id <~ call_create_document "order" (DictData payload) ;;
       ret (order_response (VStr order_id) total))
      (ret (order_response VNone total)).

(** The checkout route: the body is validated against [Order] first, and
    the handler runs only on a body that passed. *)
Inductive routed (A : Type) : Type :=
| RequestValidationError
| Handled (r : outcome A * list call).

Arguments RequestValidationError {A}.
Arguments Handled {A} r.

Definition post_api_checkout (rt : runtime) (body : pyval) (st : store)
  : routed dict :=
  match Order.validate rt body with
  | None => RequestValidationError
  | Some order => Handled (create_order order st)
  end.

End Main.

(** ** What the specification says, in its own words *)

Module Spec.

Import Py Schemas Main.

(** The total of a checkout: the sum over the items of unit price times
    quantity, in binary64, added from left to right starting at zero. *)
Definition spec_total (items : list OrderItem.t) : float :=
  fold_left
    (fun acc item =>
       (acc + OrderItem.unit_price item * float_of_Z (OrderItem.quantity item))%float)
    items 0%float.

(** The total under the compensated loop: the first term is added to
    the int [0], the others enter the loop. *)
Definition compensated_total (items : list OrderItem.t) : float :=
  let term item :=
    (OrderItem.unit_price item * float_of_Z (OrderItem.quantity item))%float in
  match items with
  | [] => 0%float
  | item :: rest => sum_compensated (0 + term item) 0 (map term rest)
  end.

(** The same sum in exact arithmetic, over the rationals the unit prices
    stand for; [None] when a unit price is not finite. *)
Definition exact_total (items : list OrderItem.t) : option Q :=
  fold_left
    (fun acc item =>
       match acc, Q_of_float (OrderItem.unit_price item) with
       | Some a, Some p => Some (a + p * inject_Z (OrderItem.quantity item))%Q
       | _, _ => None
       end)
    items (Some 0%Q).

(** The keys of a request body that name a field of [Order]. *)
Definition is_field (key : string) : bool :=
  existsb (String.eqb key)
    ["customer_name"; "customer_email"; "shipping_address"; "items"; "notes"].

(** The [total_amount] a run of [create_order] returned, if it
    returned. *)
Definition returned_total (r : outcome dict * list call) : option pyval :=
  match fst r with
  | Return response => lookup "total_amount" response
  | Raise _ => None
  end.

(** What the total may depend on. *)
Definition price_and_quantity (item : OrderItem.t) : float * Z :=
  (OrderItem.unit_price item, OrderItem.quantity item).

(** The total as a function of the unit prices and quantities alone. *)
Definition total_of (l : list (float * Z)) : option pyval :=
  if falsy l then None
  else
    match py_sum (map (fun pq => py_mul (NFloat (fst pq)) (NInt (snd pq))) l) with
    | Return total =>
        match to_float total with
        | Return _ => Some (val_of_num total)
        | Raise _ => None
        end
    | Raise _ => None
    end.

(** A float that stands for exactly the rational [q]. *)
Definition exactly (f : float) (q : option Q) : Prop :=
  match Q_of_float f, q with
  | Some a, Some b => (a == b)%Q
  | _, _ => False
  end.

(** A float no further than [bound] from the rational [q]. *)
Definition within (bound : Q) (f : float) (q : Q) : Prop :=
  match Q_of_float f with
  | Some a => (Qabs (a - q) <= bound)%Q
  | None => False
  end.

(** A stored document whose price and volume, where present, can be
    converted by [float()] and [int()]. *)
Definition well_formed (rt : runtime) (i : dict) : bool :=
  match py_float rt (get_default i "price" (VInt 0)),
        py_int rt (get_default i "volume_ml" (VInt 750)) with
  | Return _, Return _ => true
  | _, _ => false
  end.

(** The canonical Product shape of a stored document [i]: the eight
    fields, price a float, in_stock a boolean and volume_ml an integer,
    each converted from the stored value or defaulted when the document
    has none; the other fields as stored. *)
Definition canonical (rt : runtime) (i p : dict) : Prop :=
  map fst p =
    ["title"; "description"; "price"; "category"; "in_stock"; "image_url";
     "sku"; "volume_ml"]
  /\ (exists f,
        lookup "price" p = Some (VFloat f)
        /\ (lookup "price" i = None -> f = 0%float)
        /\ (forall v, lookup "price" i = Some v -> py_float rt v = Return f))
  /\ (exists b,
        lookup "in_stock" p = Some (VBool b)
        /\ (lookup "in_stock" i = None -> b = true)
        /\ (forall v, lookup "in_stock" i = Some v -> py_bool v = b))
  /\ (exists n,
        lookup "volume_ml" p = Some (VInt n)
        /\ (lookup "volume_ml" i = None -> n = 750)
        /\ (forall v, lookup "volume_ml" i = Some v -> py_int rt v = Return n))
  /\ Forall (fun key => lookup key p = Some (get i key))
       ["title"; "description"; "category"; "image_url"; "sku"].

(** The two calls of a run that seeds the default product. *)
Definition seeding_calls : list call :=
  [ GetDocuments "aroniaproduct" [];
    CreateDocument "aroniaproduct" (ModelData AroniaProduct.default) ].

(** A call that writes to the store. *)
Definition is_write (c : call) : bool :=
  match c with
  | CreateDocument _ _ => true
  | GetDocuments _ _ => false
  end.

End Spec.

(** ** Concrete inputs *)

Module Examples.

Import Py Schemas Main.

(** A runtime to run the handlers on: a string of ASCII digits reads as
    that number, and an address is a string with one [@] that is neither
    its first nor its last character. *)
Fixpoint digits_from (acc : Z) (s : string) : option Z :=
  match s with
  | EmptyString => Some acc
  | String c rest =>
      let n := Z.of_nat (Ascii.nat_of_ascii c) - 48 in
      if (0 <=? n) && (n <=? 9) then digits_from (10 * acc + n) rest else None
  end.

Definition digits (s : string) : option Z :=
  match s with
  | EmptyString => None
  | _ => digits_from 0 s
  end.

Definition digits_float (s : string) : option float :=
  match digits s with
  | Some z =>
      match float_of_int z with
      | Return f => Some f
      | Raise _ => None
      end
  | None => None
  end.

Fixpoint split_at_sign (s : string) : option (string * string) :=
  match s with
  | EmptyString => None
  | String c rest =>
      if Ascii.eqb c "@"%char then Some (EmptyString, rest)
      else
        match split_at_sign rest with
        | Some (l, r) => Some (String c l, r)
        | None => None
        end
  end.

Definition simple_address (s : string) : option string :=
  match split_at_sign s with
  | Some (String _ _, String c r) =>
      match split_at_sign (String c r) with
      | None => Some s
      | Some _ => None
      end
  | _ => None
  end.

Definition sample_runtime : runtime := {|
  float_of_str := digits_float;
  int_of_str := digits;
  lax_float_other :=
    fun v => match v with VStr s => digits_float s | _ => None end;
  lax_int_other :=
    fun v => match v with VStr s => digits s | _ => None end;
  validate_email := simple_address
|}.

(** A store that is up and holds no product. *)
Definition empty_store : store := {|
  get_documents := fun _ _ => Return [];
  create_document := fun _ _ => Return "665f1c2e9b1d8a0012345678"
|}.

(** A store that cannot be reached. *)
Definition down_store : store := {|
  get_documents := fun _ _ => Raise (Exception "Database not available");
  create_document := fun _ _ => Raise (Exception "Database not available")
|}.

(** A store that answers queries with the given documents. *)
Definition store_with (docs : list dict) : store := {|
  get_documents := fun _ _ => Return docs;
  create_document := fun _ _ => Return "665f1c2e9b1d8a0012345678"
|}.

Definition juice : dict :=
  [ ("_id", VObjectId "665f1c2e9b1d8a0012345601");
    ("title", VStr "Aronia Pure");
    ("description", VStr "Juice");
    ("price", VInt 13);
    ("category", VStr "Beverages");
    ("sku", VStr "ARONIA-1L");
    ("volume_ml", VFloat 1000) ].

Definition syrup : dict :=
  [ ("_id", VObjectId "665f1c2e9b1d8a0012345602");
    ("title", VStr "Aronia Syrup");
    ("in_stock", VInt 0) ].

(** A document whose price is null. *)
Definition null_price : dict :=
  [ ("_id", VObjectId "665f1c2e9b1d8a0012345603");
    ("title", VStr "Aronia Tea");
    ("price", VNone) ].

(** A document whose volume is null. *)
Definition null_volume : dict :=
  [ ("_id", VObjectId "665f1c2e9b1d8a0012345604");
    ("title", VStr "Aronia Jam");
    ("price", VFloat 4.5);
    ("volume_ml", VNone) ].

Definition item (sku : string) (unit_price : float) (quantity : Z) : OrderItem.t :=
  OrderItem.mk sku "Aronia Pure" unit_price quantity.

Definition order_of (items : list OrderItem.t) : Order.t :=
  Order.mk "Ana" "ana@example.com" "1 Berry Lane" items None.

(** The order of the specification's example. *)
Definition example_order : Order.t :=
  order_of [item "ARONIA-750ML" 12.90 2; item "ARONIA-250ML" 5.00 1].

(** Three items at a tenth each. *)
Definition tenth_order : Order.t := order_of [item "SAMPLE" 0.1 3].

Definition empty_order : Order.t := order_of [].

(** A request body with one item that gives no quantity, and a total of
    the client's own. *)
Definition item_without_quantity : dict :=
  [ ("product_sku", VStr "ARONIA-750ML");
    ("title", VStr "Aronia Pure");
    ("unit_price", VFloat 12.90) ].

Definition body_with (items : list pyval) : dict :=
  [ ("customer_name", VStr "Ana");
    ("customer_email", VStr "ana@example.com");
    ("shipping_address", VStr "1 Berry Lane");
    ("items", VList items) ].

(** An item whose unit price is negative. *)
Definition refund_item : dict :=
  [ ("product_sku", VStr "ARONIA-750ML");
    ("title", VStr "Aronia Pure");
    ("unit_price", VFloat (-5));
    ("quantity", VInt 1) ].

End Examples.

(** ** Facts about binary64 and the builtins *)

Module Facts.

Import Py Schemas Main.

(** Multiplying a valid binary64 value by one keeps it, bit for bit. *)
Lemma SF64mul_one_r (x : spec_float) :
  valid_binary x = true -> SF64mul x (Prim2SF 1) = x.
Proof.
  change (Prim2SF 1) with (S754_finite false 4503599627370496 (-52)).
  destruct x as [s | s | | s m e]; unfold SF64mul; simpl; intros Hv.
  - now rewrite xorb_false_r.
  - now rewrite xorb_false_r.
  - reflexivity.
  - rewrite xorb_false_r.
    unfold bounded, canonical_mantissa in Hv.
    apply andb_true_iff in Hv. destruct Hv as [Hc He].
    apply Z.eqb_eq in Hc.
    rewrite Pos.mul_comm.
    change (4503599627370496 * m)%positive
      with (m~0~0~0~0~0~0~0~0~0~0~0~0~0~0~0~0~0~0~0~0~0~0~0~0~0~0
             ~0~0~0~0~0~0~0~0~0~0~0~0~0~0~0~0~0~0~0~0~0~0~0~0~0~0)%positive.
    unfold binary_round_aux, shr_fexp.
    match goal with
    | |- context [Zdigits2 (Z.pos ?p)] =>
        assert (Hd : Zdigits2 (Z.pos p) = Z.pos (digits2_pos m) + 52)
          by (cbn [Zdigits2 digits2_pos]; lia);
        rewrite Hd
    end.
    replace (Z.pos (digits2_pos m) + 52 + (e + -52))
      with (Z.pos (digits2_pos m) + e) by lia.
    rewrite Hc.
    replace (e - (e + -52)) with 52 by lia.
    cbn [shr shr_record_of_loc].
    cbv [iter_pos]. cbn [shr_1 orb].
    cbn [shr_m loc_of_shr_record shr_r shr_s round_nearest_even].
    replace (e + -52 + 52) with e by lia.
    cbn [Zdigits2]. rewrite Hc.
    rewrite Z.sub_diag. cbn [shr shr_record_of_loc shr_m].
    now rewrite He.
Qed.

Lemma mul_one_r (x : float) : (x * 1)%float = x.
Proof.
  apply Prim2SF_inj. rewrite mul_spec. apply SF64mul_one_r, Prim2SF_valid.
Qed.

(** A quantity the schema admits converts to [float] without overflow. *)
Lemma float_of_int_quantity (q : Z) :
  OrderItem.quantity_ok q = true -> float_of_int q = Return (float_of_Z q).
Proof.
  unfold OrderItem.quantity_ok.
  rewrite andb_true_iff, !Z.leb_le. intros [Hlo Hhi].
  assert (H : q = 1 \/ q = 2 \/ q = 3 \/ q = 4 \/ q = 5 \/ q = 6 \/ q = 7 \/ q = 8
              \/ q = 9 \/ q = 10 \/ q = 11 \/ q = 12 \/ q = 13 \/ q = 14 \/ q = 15
              \/ q = 16 \/ q = 17 \/ q = 18 \/ q = 19 \/ q = 20 \/ q = 21 \/ q = 22
              \/ q = 23 \/ q = 24) by lia.
  repeat (destruct H as [-> | H]; [vm_compute; reflexivity | ]).
  subst q. vm_compute. reflexivity.
Qed.

(** *** Dicts *)

Lemma lookup_setitem_other (d : dict) (key k : string) (v : pyval) :
  k <> key -> lookup k (setitem d key v) = lookup k d.
Proof.
  intros Hne. induction d as [| [k' w] rest IH]; simpl.
  - destruct (String.eqb_spec key k) as [-> | _]; [congruence | reflexivity].
  - destruct (String.eqb_spec k' key) as [-> | Hk']; simpl.
    + destruct (String.eqb_spec key k) as [-> | _]; [congruence | reflexivity].
    + destruct (String.eqb_spec k' k); [reflexivity | exact IH].
Qed.

Lemma lookup_setitem_same (d : dict) (key : string) (v : pyval) :
  lookup key (setitem d key v) = Some v.
Proof.
  induction d as [| [k' w] rest IH]; simpl.
  - now rewrite String.eqb_refl.
  - destruct (String.eqb_spec k' key) as [-> | Hk']; simpl.
    + now rewrite String.eqb_refl.
    + destruct (String.eqb_spec k' key); [contradiction | exact IH].
Qed.

End Facts.

(** ** Checkout: [create_order] *)

Module Checkout.

Import Py Schemas Main Spec.

Lemma line_total_ok (item : OrderItem.t) :
  OrderItem.ok item = true ->
  line_total item =
    Return (NFloat (OrderItem.unit_price item
                    * float_of_Z (OrderItem.quantity item))%float).
Proof.
  intros Hok. unfold line_total, py_mul. cbn [to_float bind].
  now rewrite (Facts.float_of_int_quantity _ Hok).
Qed.

(** Once the accumulator is a float, [sum] is the left fold of binary64
    addition. *)
Lemma sum_from_float (items : list OrderItem.t) (acc : float) :
  forallb OrderItem.ok items = true ->
  sum_from (NFloat acc) (map line_total items) =
    Return (NFloat
      (fold_left
         (fun a item =>
            (a + OrderItem.unit_price item
                 * float_of_Z (OrderItem.quantity item))%float)
         items acc)).
Proof.
  revert acc. induction items as [| item rest IH]; intros acc Hok.
  - reflexivity.
  - cbn [forallb] in Hok. apply andb_true_iff in Hok. destruct Hok as [Hi Hrest].
    cbn [map sum_from fold_left]. rewrite (line_total_ok _ Hi).
    cbn [bind py_add to_float]. now apply IH.
Qed.

(** The int [0] that [sum] starts from becomes the float zero at the
    first item. *)
Lemma py_sum_items (items : list OrderItem.t) :
  forallb OrderItem.ok items = true ->
  items <> [] ->
  py_sum (map line_total items) = Return (NFloat (spec_total items)).
Proof.
  destruct items as [| item rest]; [congruence | ]. intros Hok _.
  cbn [forallb] in Hok. apply andb_true_iff in Hok. destruct Hok as [Hi Hrest].
  unfold py_sum, spec_total. cbn [map sum_from fold_left].
  rewrite (line_total_ok _ Hi). cbn [bind py_add to_float].
  change (float_of_int 0) with (Return 0%float). cbn [bind].
  now apply sum_from_float.
Qed.

(** What a run of [create_order] on a valid, non-empty order is: one
    insert of the payload, and a response that carries the total whether
    the insert returned or raised. *)
Lemma create_order_run (order : Order.t) (st : store) :
  Order.ok order = true ->
  Order.items order <> [] ->
  let total := spec_total (Order.items order) in
  let data := DictData (order_payload order total) in
  create_order order st =
    (match create_document st "order" data with
     | Return order_id => Return (order_response (VStr order_id) (NFloat total))
     | Raise _ => Return (order_response VNone (NFloat total))
     end,
     [CreateDocument "order" data]).
Proof.
  intros Hok Hne. cbv zeta. unfold create_order.
  assert (Hfalsy : falsy (Order.items order) = false)
    by (destruct (Order.items order); [congruence | reflexivity]).
  rewrite Hfalsy.
  unfold mbind, lift, try_except, call_create_document, ret.
  rewrite (py_sum_items (Order.items order) Hok Hne). cbn [to_float].
  destruct (create_document st "order" _); reflexivity.
Qed.

(** *** Validation of the request body *)

Lemma int_between_range (rt : runtime) (lo hi : Z) (v : pyval) (z : Z) :
  int_between rt lo hi v = Some z -> lo <= z <= hi.
Proof.
  unfold int_between. destruct (lax_int rt v) as [z' |]; [| discriminate].
  destruct ((lo <=? z') && (z' <=? hi)) eqn:Hr; [| discriminate].
  intros [= <-]. apply andb_true_iff in Hr. now rewrite !Z.leb_le in Hr.
Qed.

Lemma validate_item_ok (rt : runtime) (v : pyval) (item : OrderItem.t) :
  OrderItem.validate rt v = Some item -> OrderItem.ok item = true.
Proof.
  destruct v as [| | | | | | d |]; try discriminate. unfold OrderItem.validate.
  destruct (required lax_str d "product_sku"); [| discriminate].
  destruct (required lax_str d "title"); [| discriminate].
  destruct (required (lax_float rt) d "unit_price"); [| discriminate].
  destruct (with_default (int_between rt 1 24) d "quantity" 1) as [q |] eqn:Hq;
    [| discriminate].
  intros [= <-]. unfold OrderItem.ok, OrderItem.quantity_ok. cbn.
  unfold with_default in Hq. destruct (lookup "quantity" d) as [w |].
  - apply int_between_range in Hq. apply andb_true_iff. rewrite !Z.leb_le. lia.
  - injection Hq as <-. reflexivity.
Qed.

Lemma validate_items_ok (rt : runtime) (l : list pyval) (items : list OrderItem.t) :
  Order.validate_items rt l = Some items -> forallb OrderItem.ok items = true.
Proof.
  revert items. induction l as [| v rest IH]; intros items; cbn.
  - now intros [= <-].
  - destruct (OrderItem.validate rt v) as [item |] eqn:Hv; [| discriminate].
    destruct (Order.validate_items rt rest) as [items' |]; [| discriminate].
    intros [= <-]. cbn. rewrite (validate_item_ok _ _ _ Hv). now apply IH.
Qed.

(** A validated body is an order whose items keep the schema's bounds. *)
Lemma validate_ok (rt : runtime) (body : pyval) (order : Order.t) :
  Order.validate rt body = Some order -> Order.ok order = true.
Proof.
  destruct body as [| | | | | | d |]; try discriminate. unfold Order.validate.
  destruct (required lax_str d "customer_name"); [| discriminate].
  destruct (required (email_str rt) d "customer_email"); [| discriminate].
  destruct (required lax_str d "shipping_address"); [| discriminate].
  destruct (required (Order.list_of rt) d "items") as [l |] eqn:Hl; [| discriminate].
  destruct (with_default optional_str d "notes" None); [| discriminate].
  intros [= <-]. unfold Order.ok. cbn.
  unfold required in Hl. destruct (lookup "items" d) as [w |]; [| discriminate].
  destruct w; try discriminate. now apply validate_items_ok in Hl.
Qed.

(** A key that names no field of [Order] does not reach the order. *)
Lemma validate_ignores_extra (rt : runtime) (d : dict) (key : string) (v : pyval) :
  is_field key = false ->
  Order.validate rt (VDict (setitem d key v)) = Order.validate rt (VDict d).
Proof.
  unfold is_field. cbn [existsb]. rewrite !orb_false_iff.
  intros (H1 & H2 & H3 & H4 & H5 & _).
  apply String.eqb_neq in H1, H2, H3, H4, H5.
  unfold Order.validate, required, with_default.
  rewrite !Facts.lookup_setitem_other by congruence. reflexivity.
Qed.

(** *** The total *)

(** A request body with the two items of the specification's example,
    quantities written out. *)
Definition example_body : dict :=
  Examples.body_with
    [ VDict [ ("product_sku", VStr "ARONIA-750ML"); ("title", VStr "Aronia Pure");
              ("unit_price", VFloat 12.90); ("quantity", VInt 2) ];
      VDict [ ("product_sku", VStr "ARONIA-250ML"); ("title", VStr "Aronia Pure");
              ("unit_price", VFloat 5.00); ("quantity", VInt 1) ] ].

(** C1. For every request body that validates to an order with at least
    one item, the route runs [create_order] and the dict it returns has
    status ok and, at the key [total_amount], the sum over the items of
    unit price times quantity; a key of the body that names no field of
    [Order], such as a total the client supplies, changes nothing of the
    run, so the total returned with it is that same sum. *)
Theorem total_is_sum_of_items
    (rt : runtime) (st : store) (d : dict) (order : Order.t) :
  Order.validate rt (VDict d) = Some order ->
  Order.items order <> [] ->
  (exists response log,
      post_api_checkout rt (VDict d) st = Handled (Return response, log)
      /\ lookup "status" response = Some (VStr "ok")
      /\ lookup "total_amount" response
         = Some (VFloat (spec_total (Order.items order))))
  /\ (forall key v,
        is_field key = false ->
        post_api_checkout rt (VDict (setitem d key v)) st
        = post_api_checkout rt (VDict d) st
        /\ exists response log,
             post_api_checkout rt (VDict (setitem d key v)) st
             = Handled (Return response, log)
             /\ lookup "total_amount" response
                = Some (VFloat (spec_total (Order.items order)))).
Proof.
  intros Hv Hne.
  assert (Hrun : exists response log,
             post_api_checkout rt (VDict d) st = Handled (Return response, log)
             /\ lookup "status" response = Some (VStr "ok")
             /\ lookup "total_amount" response
                = Some (VFloat (spec_total (Order.items order)))).
  { unfold post_api_checkout. rewrite Hv.
    rewrite (create_order_run order st (validate_ok _ _ _ Hv) Hne).
    destruct (create_document st "order" _) as [order_id | e];
      eexists; eexists; (split; [reflexivity | split; reflexivity]). }
  split; [exact Hrun | ].
  intros key v Hkey.
  assert (Hsame : post_api_checkout rt (VDict (setitem d key v)) st
                  = post_api_checkout rt (VDict d) st).
  { unfold post_api_checkout. now rewrite validate_ignores_extra. }
  split; [exact Hsame | ]. rewrite Hsame.
  destruct Hrun as (response & log & Hr & _ & Ht). now exists response, log.
Qed.

Lemma total_is_sum_of_items_witness :
  let d := setitem example_body "total_amount" (VFloat 0.01) in
  (exists response log,
      post_api_checkout Examples.sample_runtime (VDict d) Examples.empty_store
      = Handled (Return response, log)
      /\ lookup "status" response = Some (VStr "ok")
      /\ lookup "total_amount" response
         = Some (VFloat (spec_total (Order.items Examples.example_order))))
  /\ (forall key v,
        is_field key = false ->
        post_api_checkout Examples.sample_runtime (VDict (setitem d key v))
          Examples.empty_store
        = post_api_checkout Examples.sample_runtime (VDict d) Examples.empty_store
        /\ exists response log,
             post_api_checkout Examples.sample_runtime (VDict (setitem d key v))
               Examples.empty_store
             = Handled (Return response, log)
             /\ lookup "total_amount" response
                = Some (VFloat (spec_total (Order.items Examples.example_order)))).
Proof.
  cbv zeta.
  apply (total_is_sum_of_items Examples.sample_runtime Examples.empty_store
           (setitem example_body "total_amount" (VFloat 0.01))
           Examples.example_order).
  - vm_compute. reflexivity.
  - discriminate.
Defined.

(** C4. For every valid order with at least one item, when the insert
    into the store raises, [create_order] does not raise: the dict it
    returns has status ok, a null [order_id], and at [total_amount] the
    total that the dict returned on a successful insert has, where
    [order_id] is the identifier the store gave. *)
Theorem persistence_failure_keeps_total
    (order : Order.t) (st : store) (e : exn) :
  Order.ok order = true ->
  Order.items order <> [] ->
  create_document st "order"
    (DictData (order_payload order (spec_total (Order.items order)))) = Raise e ->
  (exists response,
      fst (create_order order st) = Return response
      /\ lookup "status" response = Some (VStr "ok")
      /\ lookup "order_id" response = Some VNone
      /\ lookup "total_amount" response
         = Some (VFloat (spec_total (Order.items order))))
  /\ (forall st' order_id,
        create_document st' "order"
          (DictData (order_payload order (spec_total (Order.items order))))
          = Return order_id ->
        exists response,
          fst (create_order order st') = Return response
          /\ lookup "status" response = Some (VStr "ok")
          /\ lookup "order_id" response = Some (VStr order_id)
          /\ lookup "total_amount" response
             = Some (VFloat (spec_total (Order.items order)))).
Proof.
  intros Hok Hne Hfail. split.
  - rewrite (create_order_run order st Hok Hne). cbn [fst]. rewrite Hfail.
    eexists. split; [reflexivity | repeat split].
  - intros st' order_id Hins.
    rewrite (create_order_run order st' Hok Hne). cbn [fst]. rewrite Hins.
    eexists. split; [reflexivity | repeat split].
Qed.

Lemma persistence_failure_keeps_total_witness :
  (exists response,
      fst (create_order Examples.example_order Examples.down_store)
      = Return response
      /\ lookup "status" response = Some (VStr "ok")
      /\ lookup "order_id" response = Some VNone
      /\ lookup "total_amount" response
         = Some (VFloat (spec_total (Order.items Examples.example_order))))
  /\ (forall st' order_id,
        create_document st' "order"
          (DictData (order_payload Examples.example_order
                       (spec_total (Order.items Examples.example_order))))
          = Return order_id ->
        exists response,
          fst (create_order Examples.example_order st') = Return response
          /\ lookup "status" response = Some (VStr "ok")
          /\ lookup "order_id" response = Some (VStr order_id)
          /\ lookup "total_amount" response
             = Some (VFloat (spec_total (Order.items Examples.example_order)))).
Proof.
  apply (persistence_failure_keeps_total Examples.example_order
           Examples.down_store (Exception "Database not available")).
  - reflexivity.
  - discriminate.
  - reflexivity.
Defined.

(** C5. For every order whose items are empty, [create_order] raises the
    400 error; it returns no total and makes no call to the store. *)
Theorem empty_order_is_bad_request (order : Order.t) (st : store) :
  Order.items order = [] ->
  create_order order st =
    (Raise (HTTPException 400 "Order must contain at least one item"), [])
  /\ returned_total (create_order order st) = None.
Proof.
  intros Hempty. unfold returned_total, create_order. rewrite Hempty.
  split; reflexivity.
Qed.

Lemma empty_order_is_bad_request_witness :
  create_order Examples.empty_order Examples.empty_store =
    (Raise (HTTPException 400 "Order must contain at least one item"), [])
  /\ returned_total (create_order Examples.empty_order Examples.empty_store) = None.
Proof.
  apply (empty_order_is_bad_request Examples.empty_order Examples.empty_store).
  reflexivity.
Defined.

(** *** The total as a function of prices and quantities *)

Lemma returned_total_run (order : Order.t) (st : store) :
  returned_total (create_order order st) =
    total_of (map price_and_quantity (Order.items order)).
Proof.
  unfold returned_total, total_of, create_order.
  rewrite map_map.
  change (fun x : OrderItem.t =>
            py_mul (NFloat (fst (price_and_quantity x)))
              (NInt (snd (price_and_quantity x))))
    with line_total.
  destruct (Order.items order) as [| item rest]; [reflexivity | ].
  cbn [falsy map]. unfold mbind, lift, try_except, call_create_document, ret.
  destruct (py_sum (line_total item :: map line_total rest)) as [total | e];
    [| reflexivity].
  destruct (to_float total) as [total_amount | e]; [| reflexivity].
  destruct (create_document st "order" _); cbn;
    destruct total; reflexivity.
Qed.

(** C9. The [total_amount] that [create_order] returns is a function of
    the unit prices and quantities of the items alone: two orders that
    agree on them item by item get the same total, whatever the customer
    name, email, address and notes are and whether the insert succeeds
    or fails; and on a valid order with at least one item that total is
    returned. *)
Theorem total_depends_on_prices_and_quantities
    (order1 order2 : Order.t) (st1 st2 : store) :
  map price_and_quantity (Order.items order1) =
    map price_and_quantity (Order.items order2) ->
  returned_total (create_order order1 st1) =
    returned_total (create_order order2 st2)
  /\ (Order.ok order1 = true ->
      Order.items order1 <> [] ->
      returned_total (create_order order1 st1) =
        Some (VFloat (spec_total (Order.items order1)))).
Proof.
  intros Hagree. split.
  - rewrite !returned_total_run. now rewrite Hagree.
  - intros Hok Hne. unfold returned_total.
    rewrite (create_order_run order1 st1 Hok Hne). cbn [fst].
    destruct (create_document st1 "order" _); reflexivity.
Qed.

Lemma total_depends_on_prices_and_quantities_witness :
  let order1 := Examples.example_order in
  let order2 :=
    Order.mk "Bo" "bo@example.org" "2 Orchard Road"
      [ OrderItem.mk "X-1" "Juice" 12.90 2; OrderItem.mk "X-2" "Shot" 5.00 1 ]
      (Some "ring twice") in
  returned_total (create_order order1 Examples.down_store) =
    returned_total (create_order order2 Examples.empty_store)
  /\ (Order.ok order1 = true ->
      Order.items order1 <> [] ->
      returned_total (create_order order1 Examples.down_store) =
        Some (VFloat (spec_total (Order.items order1)))).
Proof.
  cbv zeta. apply total_depends_on_prices_and_quantities. reflexivity.
Defined.

(** *** Binary64, not decimal *)

(** The total of three items at a tenth each is the double
    0.30000000000000004: it is neither the exact sum of the unit prices
    as the doubles they are, nor three tenths. *)
Lemma tenth_order_total_not_exact :
  Order.ok Examples.tenth_order = true
  /\ returned_total (create_order Examples.tenth_order Examples.empty_store)
     = Some (VFloat (0.1 * 3))
  /\ ~ exactly (0.1 * 3) (exact_total (Order.items Examples.tenth_order))
  /\ ~ exactly (0.1 * 3) (Some (3 # 10)).
Proof.
  split; [reflexivity | ]. split; [vm_compute; reflexivity | ].
  split; vm_compute; intros H; discriminate H.
Qed.

(** C8, amended. The total is computed in binary64, every product and
    every partial sum rounded to the nearest double, not in exact decimal
    arithmetic.  For the items 12.90 x 2 and 5.00 x 1 the total returned
    is the double written 30.8: it is within 2^-49 of 30.80, and it is
    not 30.80. *)
Theorem example_total_is_nearest_double :
  (forall order st,
      Order.ok order = true ->
      Order.items order <> [] ->
      returned_total (create_order order st) =
        Some (VFloat (spec_total (Order.items order))))
  /\ (forall st,
        returned_total (create_order Examples.example_order st)
        = Some (VFloat 30.8))
  /\ within (1 # 562949953421312) 30.8 (308 # 10)
  /\ ~ exactly 30.8 (Some (308 # 10)).
Proof.
  split; [| split; [| split]].
  - intros order st Hok Hne. unfold returned_total.
    rewrite (create_order_run order st Hok Hne). cbn [fst].
    destruct (create_document st "order" _); reflexivity.
  - intros st. now rewrite returned_total_run.
  - vm_compute. intros H; discriminate H.
  - vm_compute. intros H; discriminate H.
Qed.

(** The two totals named above are the same under the compensated loop
    of later interpreters; on other orders the two sums can differ in the
    last bit. *)
Lemma named_totals_under_compensation :
  compensated_total (Order.items Examples.example_order) = 30.8%float
  /\ compensated_total (Order.items Examples.tenth_order) = (0.1 * 3)%float
  /\ spec_total
       [Examples.item "A" 0.1 1; Examples.item "B" 0.2 1; Examples.item "C" 0.3 1]
     = 0.6000000000000001%float
  /\ compensated_total
       [Examples.item "A" 0.1 1; Examples.item "B" 0.2 1; Examples.item "C" 0.3 1]
     = 0.6%float.
Proof.
  repeat split; vm_compute; reflexivity.
Qed.

(** *** Items that give no quantity *)

(** The sum of unit price times quantity over [items], continued from
    the partial sum [acc]. *)
Definition total_from (acc : float) (items : list OrderItem.t) : float :=
  fold_left
    (fun a item =>
       (a + OrderItem.unit_price item * float_of_Z (OrderItem.quantity item))%float)
    items acc.

Lemma validate_items_app
    (rt : runtime) (l1 l2 : list pyval) (items1 items2 : list OrderItem.t) :
  Order.validate_items rt l1 = Some items1 ->
  Order.validate_items rt l2 = Some items2 ->
  Order.validate_items rt (l1 ++ l2)%list = Some (items1 ++ items2)%list.
Proof.
  revert items1. induction l1 as [| v rest IH]; intros items1; cbn.
  - now intros [= <-].
  - destruct (OrderItem.validate rt v) as [item |]; [| discriminate].
    destruct (Order.validate_items rt rest) as [items |]; [| discriminate].
    intros [= <-] H2. now rewrite (IH items eq_refl H2).
Qed.

(** The term of an item of quantity 1 is its unit price, wherever the
    item stands among the others. *)
Lemma total_with_unit_item
    (items_before items_after : list OrderItem.t) (sku title : string) (p : float) :
  spec_total (items_before ++ OrderItem.mk sku title p 1 :: items_after)%list
  = total_from (spec_total items_before + p) items_after.
Proof.
  unfold spec_total, total_from. rewrite fold_left_app. cbn [fold_left].
  cbn [OrderItem.unit_price OrderItem.quantity].
  change (float_of_Z 1) with 1%float. now rewrite Facts.mul_one_r.
Qed.

(** C10. A request in which an item has no quantity key is not rejected
    for it: when the rest of the body and the other fields of the item
    pass, the body validates to an order in which that item has quantity
    1, the route runs [create_order], and in the [total_amount] returned
    the item's term is its unit price, added to the sum of the items
    before it (to zero when it is the first). *)
Theorem omitted_quantity_defaults_to_one
    (rt : runtime) (st : store) (d item : dict) (before after : list pyval)
    (name email address : string) (notes : option string)
    (items_before items_after : list OrderItem.t)
    (sku title : string) (p : float) :
  required lax_str d "customer_name" = Some name ->
  required (email_str rt) d "customer_email" = Some email ->
  required lax_str d "shipping_address" = Some address ->
  with_default optional_str d "notes" None = Some notes ->
  lookup "items" d = Some (VList (before ++ VDict item :: after)%list) ->
  Order.validate_items rt before = Some items_before ->
  Order.validate_items rt after = Some items_after ->
  required lax_str item "product_sku" = Some sku ->
  required lax_str item "title" = Some title ->
  required (lax_float rt) item "unit_price" = Some p ->
  lookup "quantity" item = None ->
  Order.validate rt (VDict d)
  = Some (Order.mk name email address
            (items_before ++ OrderItem.mk sku title p 1 :: items_after)%list notes)
  /\ exists response log,
       post_api_checkout rt (VDict d) st = Handled (Return response, log)
       /\ lookup "total_amount" response
          = Some (VFloat (total_from (spec_total items_before + p) items_after)).
Proof.
  intros Hname Hemail Haddress Hnotes Hitems Hbefore Hafter Hsku Htitle Hprice Hq.
  assert (Hitem : OrderItem.validate rt (VDict item)
                  = Some (OrderItem.mk sku title p 1)).
  { unfold OrderItem.validate, with_default. now rewrite Hsku, Htitle, Hprice, Hq. }
  assert (Hlist : Order.validate_items rt (before ++ VDict item :: after)%list
                  = Some (items_before ++ OrderItem.mk sku title p 1 :: items_after)%list).
  { apply validate_items_app; [exact Hbefore | ].
    cbn [Order.validate_items]. now rewrite Hitem, Hafter. }
  assert (Hv : Order.validate rt (VDict d)
               = Some (Order.mk name email address
                         (items_before ++ OrderItem.mk sku title p 1 :: items_after)%list
                         notes)).
  { unfold Order.validate. rewrite Hname, Hemail, Haddress, Hnotes.
    unfold required. rewrite Hitems. cbn [Order.list_of]. now rewrite Hlist. }
  split; [exact Hv | ].
  unfold post_api_checkout. rewrite Hv.
  rewrite (create_order_run _ st (validate_ok _ _ _ Hv))
    by (cbn [Order.items]; now destruct items_before).
  cbn [Order.items]. rewrite total_with_unit_item.
  destruct (create_document st "order" _) as [order_id | e];
    eexists; eexists; (split; [reflexivity | reflexivity]).
Qed.

Lemma omitted_quantity_defaults_to_one_witness :
  let second :=
    [ ("product_sku", VStr "ARONIA-250ML"); ("title", VStr "Aronia Pure");
      ("unit_price", VFloat 5.00); ("quantity", VInt 2) ] in
  let d := Examples.body_with [VDict Examples.item_without_quantity; VDict second] in
  Order.validate Examples.sample_runtime (VDict d)
  = Some (Order.mk "Ana" "ana@example.com" "1 Berry Lane"
            ([] ++ OrderItem.mk "ARONIA-750ML" "Aronia Pure" 12.90 1
                :: [OrderItem.mk "ARONIA-250ML" "Aronia Pure" 5.00 2])%list None)
  /\ exists response log,
       post_api_checkout Examples.sample_runtime (VDict d) Examples.empty_store
       = Handled (Return response, log)
       /\ lookup "total_amount" response
          = Some (VFloat (total_from (spec_total [] + 12.90)
                            [OrderItem.mk "ARONIA-250ML" "Aronia Pure" 5.00 2])).
Proof.
  cbv zeta.
  apply (omitted_quantity_defaults_to_one Examples.sample_runtime
           Examples.empty_store _ Examples.item_without_quantity []
           [VDict [ ("product_sku", VStr "ARONIA-250ML");
                    ("title", VStr "Aronia Pure");
                    ("unit_price", VFloat 5.00); ("quantity", VInt 2) ]]);
    reflexivity.
Defined.

(** *** What validation rejects, and what it lets through *)

Lemma validate_items_rejects (rt : runtime) (l : list pyval) (v : pyval) :
  In v l -> OrderItem.validate rt v = None -> Order.validate_items rt l = None.
Proof.
  induction l as [| w rest IH]; [contradiction | ].
  intros [-> | Hin] Hv; cbn.
  - now rewrite Hv.
  - rewrite (IH Hin Hv). now destruct (OrderItem.validate rt w).
Qed.

Lemma items_rejected (rt : runtime) (d : dict) (l : list pyval) (st : store) :
  lookup "items" d = Some (VList l) ->
  Order.validate_items rt l = None ->
  post_api_checkout rt (VDict d) st = RequestValidationError.
Proof.
  intros Hl Hnone. unfold post_api_checkout, Order.validate.
  unfold required at 4. rewrite Hl. cbn [Order.list_of]. rewrite Hnone.
  destruct (required lax_str d "customer_name");
    destruct (required (email_str rt) d "customer_email");
    destruct (required lax_str d "shipping_address"); reflexivity.
Qed.

(** A quantity outside 1..24 fails validation: the handler is not
    run. *)
Lemma quantity_out_of_range_rejected
    (rt : runtime) (d item : dict) (l : list pyval) (v : pyval) (q : Z)
    (st : store) :
  lookup "items" d = Some (VList l) ->
  In (VDict item) l ->
  lookup "quantity" item = Some v ->
  lax_int rt v = Some q ->
  q < 1 \/ 24 < q ->
  post_api_checkout rt (VDict d) st = RequestValidationError.
Proof.
  intros Hl Hin Hq Hint Hrange.
  apply (items_rejected rt d l st Hl).
  apply (validate_items_rejects rt l (VDict item) Hin).
  unfold OrderItem.validate, with_default, int_between. rewrite Hq, Hint.
  assert (Hr : (1 <=? q) && (q <=? 24) = false).
  { apply andb_false_iff. rewrite !Z.leb_gt. lia. }
  rewrite Hr.
  destruct (required lax_str item "product_sku");
    destruct (required lax_str item "title");
    destruct (required (lax_float rt) item "unit_price"); reflexivity.
Qed.

Lemma quantity_out_of_range_rejected_witness :
  post_api_checkout Examples.sample_runtime
    (VDict (Examples.body_with
              [VDict (setitem Examples.item_without_quantity "quantity" (VInt 25))]))
    Examples.empty_store
  = RequestValidationError.
Proof.
  apply (quantity_out_of_range_rejected Examples.sample_runtime _
           (setitem Examples.item_without_quantity "quantity" (VInt 25))
           [VDict (setitem Examples.item_without_quantity "quantity" (VInt 25))]
           (VInt 25) 25).
  - reflexivity.
  - left. reflexivity.
  - reflexivity.
  - reflexivity.
  - lia.
Defined.

(** An address that is not well formed fails validation: the handler is
    not run. *)
Lemma malformed_email_rejected
    (rt : runtime) (d : dict) (s : string) (st : store) :
  lookup "customer_email" d = Some (VStr s) ->
  validate_email rt s = None ->
  post_api_checkout rt (VDict d) st = RequestValidationError.
Proof.
  intros He Hbad. unfold post_api_checkout, Order.validate.
  unfold required at 2. rewrite He. cbn [email_str]. rewrite Hbad.
  destruct (required lax_str d "customer_name"); reflexivity.
Qed.

Lemma malformed_email_rejected_witness :
  post_api_checkout Examples.sample_runtime
    (VDict (setitem (Examples.body_with [VDict Examples.item_without_quantity])
              "customer_email" (VStr "ana.example.com")))
    Examples.empty_store
  = RequestValidationError.
Proof.
  apply (malformed_email_rejected Examples.sample_runtime _ "ana.example.com").
  - reflexivity.
  - reflexivity.
Defined.

(** C2, at the input where the code departs from it.  An item with the
    unit price -5 passes validation ([unit_price] carries no bound), the
    handler runs, and the total it stores and returns is -5. *)
Theorem negative_unit_price_reaches_total :
  post_api_checkout Examples.sample_runtime
    (VDict (Examples.body_with [VDict Examples.refund_item]))
    Examples.empty_store
  = Handled
      (Return (order_response (VStr "665f1c2e9b1d8a0012345678") (NFloat (-5))),
       [CreateDocument "order"
          (DictData
             (order_payload
                (Examples.order_of [Examples.item "ARONIA-750ML" (-5) 1])
                (-5)))]).
Proof.
  vm_compute. reflexivity.
Qed.

End Checkout.

(** ** The catalogue: [list_products] *)

Module Catalogue.

Import Py Schemas Main Spec.

(** When the query raises or returns nothing, the run is the seeding
    run, whatever the insert does. *)
Lemma seeding_run (rt : runtime) (st : store) :
  match get_documents st "aroniaproduct" [] with
  | Return items => items = []
  | Raise _ => True
  end ->
  list_products rt st =
    (Return [AroniaProduct.model_dump AroniaProduct.default], seeding_calls).
Proof.
  intros Hq. unfold list_products, mbind, try_except, call_get_documents,
    call_create_document, ret, seeding_calls.
  destruct (get_documents st "aroniaproduct" []) as [items | e].
  - subst items. cbn.
    destruct (create_document st "aroniaproduct" _); reflexivity.
  - cbn. destruct (create_document st "aroniaproduct" _); reflexivity.
Qed.

(** When the query returns documents, the run is the comprehension over
    them, and the query is its only call. *)
Lemma listing_run (rt : runtime) (st : store) (items : list dict) :
  get_documents st "aroniaproduct" [] = Return items ->
  items <> [] ->
  list_products rt st =
    (comprehension (product_dict rt) items, [GetDocuments "aroniaproduct" []]).
Proof.
  intros Hq Hne. unfold list_products, mbind, try_except, call_get_documents,
    lift, ret.
  rewrite Hq. destruct items as [| i rest]; [congruence | ]. cbn [falsy].
  now rewrite app_nil_r.
Qed.

Lemma product_dict_returns (rt : runtime) (i : dict) :
  (exists p, product_dict rt i = Return p) <-> well_formed rt i = true.
Proof.
  unfold product_dict, well_formed.
  destruct (py_float rt (get_default i "price" (VInt 0))) as [price | e]; cbn.
  - destruct (py_int rt (get_default i "volume_ml" (VInt 750))) as [n | e]; cbn.
    + split; [reflexivity | eauto].
    + split; [intros [p Hp]; discriminate | discriminate].
  - split; [intros [p Hp]; discriminate | discriminate].
Qed.

Lemma comprehension_returns {A B : Type} (f : A -> outcome B) (l : list A) :
  (exists ys, comprehension f l = Return ys)
  <-> Forall (fun x => exists y, f x = Return y) l.
Proof.
  induction l as [| x rest IH]; cbn.
  - split; [constructor | eauto].
  - split.
    + intros [ys Hys]. destruct (f x) as [y | e] eqn:Hx; [| discriminate].
      cbn in Hys. constructor; [eauto | ]. apply IH.
      destruct (comprehension f rest); [eauto | discriminate].
    + intros H. inversion H as [| ? ? [y Hy] Hrest]; subst.
      apply IH in Hrest. destruct Hrest as [ys Hys].
      rewrite Hy, Hys. cbn. eauto.
Qed.

(** A comprehension that returns gives one element per element, each the
    value of the element expression. *)
Lemma comprehension_Forall2 {A B : Type} (f : A -> outcome B) (l : list A)
    (ys : list B) :
  comprehension f l = Return ys -> Forall2 (fun x y => f x = Return y) l ys.
Proof.
  revert ys. induction l as [| x rest IH]; intros ys; cbn.
  - intros [= <-]. constructor.
  - destruct (f x) as [y | e] eqn:Hx; [| discriminate]. cbn.
    destruct (comprehension f rest) as [ys' | e]; [| discriminate]. cbn.
    intros [= <-]. constructor; [exact Hx | now apply IH].
Qed.

Lemma product_dict_canonical (rt : runtime) (i p : dict) :
  product_dict rt i = Return p -> canonical rt i p.
Proof.
  unfold product_dict.
  destruct (py_float rt (get_default i "price" (VInt 0))) as [price | e] eqn:Hp;
    [| discriminate].
  destruct (py_int rt (get_default i "volume_ml" (VInt 750))) as [n | e] eqn:Hn;
    [| discriminate].
  cbn [bind]. intros [= <-]. unfold canonical.
  split; [reflexivity | ]. split; [| split; [| split]].
  - exists price. split; [reflexivity | ]. unfold get_default in Hp. split.
    + intros Habs. rewrite Habs in Hp.
      change (py_float rt (VInt 0)) with (Return 0%float) in Hp. congruence.
    + intros v Hv. now rewrite Hv in Hp.
  - exists (py_bool (get_default i "in_stock" (VBool true))).
    split; [reflexivity | ]. unfold get_default. split.
    + intros Habs. now rewrite Habs.
    + intros v Hv. now rewrite Hv.
  - exists n. split; [reflexivity | ]. unfold get_default in Hn. split.
    + intros Habs. rewrite Habs in Hn.
      change (py_int rt (VInt 750)) with (Return 750) in Hn. congruence.
    + intros v Hv. now rewrite Hv in Hn.
  - repeat constructor.
Qed.

Lemma forallb_well_formed (rt : runtime) (items : list dict) :
  forallb (well_formed rt) items = true
  <-> Forall (fun i => exists p, product_dict rt i = Return p) items.
Proof.
  rewrite forallb_forall, Forall_forall.
  split; intros H i Hi; apply product_dict_returns; auto.
Qed.

(** The default product keeps the constraints of its own fields. *)
Lemma default_product_ok : AroniaProduct.ok AroniaProduct.default = true.
Proof.
  reflexivity.
Qed.

(** *** When the listing returns *)

(** C3, at a store where it fails: one stored document whose price is
    null.  The query succeeds, [float(None)] raises inside the
    comprehension, and nothing catches it. *)
Lemma null_price_breaks_listing :
  get_documents (Examples.store_with [Examples.null_price]) "aroniaproduct" []
  = Return [Examples.null_price]
  /\ list_products Examples.sample_runtime
       (Examples.store_with [Examples.null_price])
     = (Raise TypeError, [GetDocuments "aroniaproduct" []]).
Proof.
  split; reflexivity.
Qed.

(** C3, amended. [list_products] returns a product sequence exactly when
    the query raises (the failure is swallowed and the result taken as
    empty) or returns documents whose price and volume, where present,
    can all be converted; in particular it returns whenever the query
    fails or finds nothing. *)
Theorem listing_returns_iff (rt : runtime) (st : store) :
  (exists products, fst (list_products rt st) = Return products)
  <-> match get_documents st "aroniaproduct" [] with
      | Return items => forallb (well_formed rt) items = true
      | Raise _ => True
      end.
Proof.
  destruct (get_documents st "aroniaproduct" []) as [items | e] eqn:Hq.
  - destruct items as [| i rest].
    + rewrite seeding_run by now rewrite Hq. cbn. split; eauto.
    + rewrite (listing_run rt st (i :: rest) Hq) by discriminate. cbn [fst].
      rewrite comprehension_returns. symmetry. apply forallb_well_formed.
  - rewrite seeding_run by now rewrite Hq. cbn. split; eauto.
Qed.

(** *** The seeded default *)

(** C6. Whenever the query returns nothing or raises, [list_products]
    returns one product, with sku ARONIA-750ML, price 12.90, volume 750
    and in stock, after one attempt to insert it, whatever that attempt
    does. *)
Theorem empty_catalogue_lists_default (rt : runtime) (st : store) :
  get_documents st "aroniaproduct" [] = Return []
  \/ (exists e, get_documents st "aroniaproduct" [] = Raise e) ->
  exists product,
    list_products rt st = (Return [product], seeding_calls)
    /\ lookup "sku" product = Some (VStr "ARONIA-750ML")
    /\ lookup "price" product = Some (VFloat 12.90)
    /\ lookup "volume_ml" product = Some (VInt 750)
    /\ lookup "in_stock" product = Some (VBool true).
Proof.
  intros Hq. exists (AroniaProduct.model_dump AroniaProduct.default).
  split; [| repeat split].
  apply seeding_run. destruct Hq as [Hq | [e Hq]]; now rewrite Hq.
Qed.

Lemma empty_catalogue_lists_default_witness :
  exists product,
    list_products Examples.sample_runtime Examples.down_store
    = (Return [product], seeding_calls)
    /\ lookup "sku" product = Some (VStr "ARONIA-750ML")
    /\ lookup "price" product = Some (VFloat 12.90)
    /\ lookup "volume_ml" product = Some (VInt 750)
    /\ lookup "in_stock" product = Some (VBool true).
Proof.
  apply (empty_catalogue_lists_default Examples.sample_runtime Examples.down_store).
  right. exists (Exception "Database not available"). reflexivity.
Defined.

(** *** Stored documents *)

(** C7, at a store where it fails: two stored documents, the second with
    a null volume.  No product is returned. *)
Lemma null_volume_breaks_listing :
  let st := Examples.store_with [Examples.juice; Examples.null_volume] in
  get_documents st "aroniaproduct" []
  = Return [Examples.juice; Examples.null_volume]
  /\ fst (list_products Examples.sample_runtime st) = Raise TypeError.
Proof.
  split; reflexivity.
Qed.

(** C7, amended. Whenever the query returns N documents, N at least one,
    whose price and volume, where present, can all be converted,
    [list_products] returns N products, the i-th the canonical shape of
    the i-th document, and writes nothing to the store. *)
Theorem stored_products_are_normalized
    (rt : runtime) (st : store) (items : list dict) :
  get_documents st "aroniaproduct" [] = Return items ->
  items <> [] ->
  forallb (well_formed rt) items = true ->
  exists products,
    fst (list_products rt st) = Return products
    /\ List.length products = List.length items
    /\ Forall2 (canonical rt) items products
    /\ existsb is_write (snd (list_products rt st)) = false.
Proof.
  intros Hq Hne Hwf.
  rewrite (listing_run rt st items Hq Hne). cbn [fst snd].
  apply forallb_well_formed, comprehension_returns in Hwf.
  destruct Hwf as [products Hps]. exists products.
  pose proof (comprehension_Forall2 _ _ _ Hps) as Hall.
  split; [exact Hps | ]. split; [| split; [| reflexivity]].
  - symmetry. exact (Forall2_length Hall).
  - clear Hps Hq Hne. induction Hall as [| i p rest ps Hp _ IH]; constructor.
    + now apply product_dict_canonical.
    + exact IH.
Qed.

Lemma stored_products_are_normalized_witness :
  let st := Examples.store_with [Examples.juice; Examples.syrup] in
  exists products,
    fst (list_products Examples.sample_runtime st) = Return products
    /\ List.length products = List.length [Examples.juice; Examples.syrup]
    /\ Forall2 (canonical Examples.sample_runtime)
         [Examples.juice; Examples.syrup] products
    /\ existsb is_write (snd (list_products Examples.sample_runtime st)) = false.
Proof.
  cbv zeta.
  apply (stored_products_are_normalized Examples.sample_runtime
           (Examples.store_with [Examples.juice; Examples.syrup])).
  - reflexivity.
  - discriminate.
  - reflexivity.
Defined.

End Catalogue.

(** ** More on checkout: what reaches the handler and what it stores *)

Module Intake.

Import Py Schemas Main Spec.

(** The keys a request body must have, and the keys each of its items
    must have. *)
Definition required_keys : list string :=
  ["customer_name"; "customer_email"; "shipping_address"; "items"].

Definition required_item_keys : list string :=
  ["product_sku"; "title"; "unit_price"].

(** Every order that validation lets through to [create_order] has the
    quantity of each item between 1 and 24. *)
Theorem validated_quantities_in_range
    (rt : runtime) (body : pyval) (order : Order.t) :
  Order.validate rt body = Some order ->
  Forall (fun item => 1 <= OrderItem.quantity item <= 24) (Order.items order).
Proof.
  intros Hv. apply Checkout.validate_ok in Hv. unfold Order.ok in Hv.
  rewrite forallb_forall in Hv. apply Forall_forall. intros item Hin.
  specialize (Hv item Hin). unfold OrderItem.ok, OrderItem.quantity_ok in Hv.
  apply andb_true_iff in Hv. now rewrite !Z.leb_le in Hv.
Qed.

Lemma validated_quantities_in_range_witness :
  Forall (fun item => 1 <= OrderItem.quantity item <= 24)
    [Examples.item "ARONIA-750ML" 12.90 1; Examples.item "ARONIA-750ML" (-5) 1].
Proof.
  apply (validated_quantities_in_range Examples.sample_runtime
           (VDict (Examples.body_with
                     [VDict Examples.item_without_quantity;
                      VDict Examples.refund_item]))
           (Examples.order_of
              [Examples.item "ARONIA-750ML" 12.90 1;
               Examples.item "ARONIA-750ML" (-5) 1])).
  vm_compute. reflexivity.
Defined.

Lemma item_missing_key_rejected (rt : runtime) (item : dict) (key : string) :
  In key required_item_keys ->
  lookup key item = None ->
  OrderItem.validate rt (VDict item) = None.
Proof.
  unfold required_item_keys, OrderItem.validate, required.
  intros [<- | [<- | [<- | []]]] Hnone; rewrite Hnone.
  - reflexivity.
  - now destruct (lookup "product_sku" item) as [v |]; [destruct (lax_str v) |].
  - destruct (lookup "product_sku" item) as [v |]; [destruct (lax_str v) |];
      (destruct (lookup "title" item) as [w |]; [destruct (lax_str w) |]);
      reflexivity.
Qed.

(** A body that lacks one of the four required keys, or that holds an
    item lacking its sku, title or unit price, fails validation: the
    handler is not run. *)
Theorem missing_required_key_rejected
    (rt : runtime) (d : dict) (st : store) :
  (exists key, In key required_keys /\ lookup key d = None)
  \/ (exists l item key,
        lookup "items" d = Some (VList l)
        /\ In (VDict item) l
        /\ In key required_item_keys
        /\ lookup key item = None) ->
  post_api_checkout rt (VDict d) st = RequestValidationError.
Proof.
  intros [(key & Hin & Hnone) | (l & item & key & Hl & Hin & Hkey & Hnone)].
  - unfold post_api_checkout, Order.validate, required.
    destruct Hin as [<- | [<- | [<- | [<- | []]]]]; rewrite Hnone.
    + reflexivity.
    + now destruct (lookup "customer_name" d) as [v |]; [destruct (lax_str v) |].
    + destruct (lookup "customer_name" d) as [v |]; [destruct (lax_str v) |];
        (destruct (lookup "customer_email" d) as [w |];
           [destruct (email_str rt w) |]); reflexivity.
    + destruct (lookup "customer_name" d) as [v |]; [destruct (lax_str v) |];
        (destruct (lookup "customer_email" d) as [w |];
           [destruct (email_str rt w) |]);
        (destruct (lookup "shipping_address" d) as [u |];
           [destruct (lax_str u) |]); reflexivity.
  - apply (Checkout.items_rejected rt d l st Hl).
    apply (Checkout.validate_items_rejects rt l (VDict item) Hin).
    now apply item_missing_key_rejected with (key := key).
Qed.

Lemma missing_required_key_rejected_witness :
  post_api_checkout Examples.sample_runtime
    (VDict (Examples.body_with
              [VDict [("product_sku", VStr "ARONIA-750ML");
                      ("unit_price", VFloat 12.90)]]))
    Examples.empty_store
  = RequestValidationError.
Proof.
  apply (missing_required_key_rejected Examples.sample_runtime).
  right.
  exists [VDict [("product_sku", VStr "ARONIA-750ML"); ("unit_price", VFloat 12.90)]],
    [("product_sku", VStr "ARONIA-750ML"); ("unit_price", VFloat 12.90)],
    "title".
  repeat split; try reflexivity.
  - left. reflexivity.
  - right. left. reflexivity.
Defined.

(** *** The stored payload *)

Lemma dumped_item_validates (rt : runtime) (item : OrderItem.t) :
  OrderItem.ok item = true ->
  OrderItem.validate rt (VDict (OrderItem.model_dump item)) = Some item.
Proof.
  intros Hok. destruct item as [sku title p q].
  unfold OrderItem.ok in Hok. cbn in Hok.
  unfold OrderItem.validate, required, with_default, int_between. cbn.
  unfold OrderItem.quantity_ok in Hok. now rewrite Hok.
Qed.

Lemma dumped_items_validate (rt : runtime) (items : list OrderItem.t) :
  forallb OrderItem.ok items = true ->
  Order.validate_items rt
    (map (fun item => VDict (OrderItem.model_dump item)) items) = Some items.
Proof.
  induction items as [| item rest IH]; [reflexivity | ].
  cbn [forallb map Order.validate_items]. intros Hok.
  apply andb_true_iff in Hok. destruct Hok as [Hi Hrest].
  now rewrite (dumped_item_validates rt item Hi), (IH Hrest).
Qed.

(** The payload [create_order] hands to the store validates back to the
    order it came from, whatever total it carries, as long as the stored
    address is one the email check leaves as it is. *)
Theorem stored_payload_validates_back
    (rt : runtime) (order : Order.t) (total_amount : float) :
  Order.ok order = true ->
  validate_email rt (Order.customer_email order)
    = Some (Order.customer_email order) ->
  Order.validate rt (VDict (order_payload order total_amount)) = Some order.
Proof.
  intros Hok Hemail. unfold order_payload.
  rewrite Checkout.validate_ignores_extra by reflexivity.
  destruct order as [name email address items notes]. cbn in Hemail, Hok.
  unfold Order.validate, required, with_default. cbn.
  rewrite Hemail. unfold Order.ok in Hok. cbn in Hok.
  rewrite (dumped_items_validate rt items Hok). now destruct notes.
Qed.

Lemma stored_payload_validates_back_witness :
  Order.validate Examples.sample_runtime
    (VDict (order_payload Examples.example_order 30.8))
  = Some Examples.example_order.
Proof.
  apply (stored_payload_validates_back Examples.sample_runtime
           Examples.example_order 30.8); reflexivity.
Defined.

(** On a valid order with at least one item, [create_order] makes one
    call to the store: an insert into the collection "order" of a dict
    that has every key of the order's dump with its value, and
    [total_amount] set to the total that the response carries. *)
Theorem checkout_stores_what_it_returns (order : Order.t) (st : store) :
  Order.ok order = true ->
  Order.items order <> [] ->
  exists payload total_amount,
    snd (create_order order st) = [CreateDocument "order" (DictData payload)]
    /\ lookup "total_amount" payload = Some (VFloat total_amount)
    /\ returned_total (create_order order st) = Some (VFloat total_amount)
    /\ (forall key,
          key <> "total_amount" ->
          lookup key payload = lookup key (Order.model_dump order)).
Proof.
  intros Hok Hne.
  exists (order_payload order (spec_total (Order.items order))),
    (spec_total (Order.items order)).
  unfold returned_total. rewrite (Checkout.create_order_run order st Hok Hne).
  cbn [fst snd]. split; [reflexivity | ]. split; [| split].
  - apply Facts.lookup_setitem_same.
  - destruct (create_document st "order" _); reflexivity.
  - intros key Hkey. now apply Facts.lookup_setitem_other.
Qed.

Lemma checkout_stores_what_it_returns_witness :
  exists payload total_amount,
    snd (create_order Examples.example_order Examples.down_store)
    = [CreateDocument "order" (DictData payload)]
    /\ lookup "total_amount" payload = Some (VFloat total_amount)
    /\ returned_total (create_order Examples.example_order Examples.down_store)
       = Some (VFloat total_amount)
    /\ (forall key,
          key <> "total_amount" ->
          lookup key payload = lookup key (Order.model_dump Examples.example_order)).
Proof.
  apply (checkout_stores_what_it_returns Examples.example_order Examples.down_store).
  - reflexivity.
  - discriminate.
Defined.

End Intake.

(** ** More on the catalogue: store calls and round trips *)

Module Listing.

Import Py Schemas Main Spec.

(** The keys of a listed product. *)
Definition product_keys : list string :=
  ["title"; "description"; "price"; "category"; "in_stock"; "image_url";
   "sku"; "volume_ml"].

(** A stored document that holds the dump of a product: the eight keys
    with the dumped values, beside whatever else the store keeps in it
    (an [_id], timestamps). *)
Definition holds (d : dict) (p : AroniaProduct.t) : Prop :=
  Forall (fun key => lookup key d = lookup key (AroniaProduct.model_dump p))
    product_keys.

(** [list_products] always starts with one query of "aroniaproduct" with
    the empty filter; it follows it with one insert, of the default
    product into "aroniaproduct", exactly when the query raised or found
    nothing, and it makes no other call. *)
Theorem listing_store_calls (rt : runtime) (st : store) :
  snd (list_products rt st) =
    match get_documents st "aroniaproduct" [] with
    | Return (_ :: _) => [GetDocuments "aroniaproduct" []]
    | _ => seeding_calls
    end.
Proof.
  destruct (get_documents st "aroniaproduct" []) as [[| i rest] | e] eqn:Hq.
  - now rewrite Catalogue.seeding_run by now rewrite Hq.
  - now rewrite (Catalogue.listing_run rt st (i :: rest) Hq).
  - now rewrite Catalogue.seeding_run by now rewrite Hq.
Qed.

(** Normalising is idempotent: the dict built for a stored document is
    the dict built for itself. *)
Theorem product_dict_idempotent (rt : runtime) (i p : dict) :
  product_dict rt i = Return p -> product_dict rt p = Return p.
Proof.
  unfold product_dict.
  destruct (py_float rt (get_default i "price" (VInt 0))) as [price | e];
    [| discriminate].
  destruct (py_int rt (get_default i "volume_ml" (VInt 750))) as [n | e];
    [| discriminate].
  cbn [bind]. intros [= <-]. cbn. reflexivity.
Qed.

Lemma product_dict_idempotent_witness :
  product_dict Examples.sample_runtime
    [ ("title", VStr "Aronia Syrup"); ("description", VNone);
      ("price", VFloat 0); ("category", VNone); ("in_stock", VBool false);
      ("image_url", VNone); ("sku", VNone); ("volume_ml", VInt 750) ]
  = Return
      [ ("title", VStr "Aronia Syrup"); ("description", VNone);
        ("price", VFloat 0); ("category", VNone); ("in_stock", VBool false);
        ("image_url", VNone); ("sku", VNone); ("volume_ml", VInt 750) ].
Proof.
  apply (product_dict_idempotent Examples.sample_runtime Examples.syrup).
  reflexivity.
Defined.

Lemma held_product_dict (rt : runtime) (d : dict) (p : AroniaProduct.t) :
  holds d p -> product_dict rt d = Return (AroniaProduct.model_dump p).
Proof.
  unfold holds, product_keys. intros H.
  repeat match goal with
         | H : Forall _ (_ :: _) |- _ =>
             let Hk := fresh "Hk" in
             let Hr := fresh "Hr" in
             inversion H as [| ? ? Hk Hr]; subst; clear H
         end.
  unfold product_dict, get, get_default.
  repeat match goal with Hk : lookup _ d = _ |- _ => rewrite Hk; clear Hk end.
  cbn. reflexivity.
Qed.

(** What is stored comes back: when the query returns documents that
    hold the dumps of products (as inserted with [create_document], with
    the keys the store adds), [list_products] returns exactly those
    dumps, in order. *)
Theorem stored_dumps_list_back
    (rt : runtime) (st : store) (docs : list dict) (ps : list AroniaProduct.t) :
  get_documents st "aroniaproduct" [] = Return docs ->
  docs <> [] ->
  Forall2 holds docs ps ->
  fst (list_products rt st) = Return (map AroniaProduct.model_dump ps).
Proof.
  intros Hq Hne Hall. rewrite (Catalogue.listing_run rt st docs Hq Hne).
  cbn [fst]. clear Hq Hne.
  induction Hall as [| d p docs ps Hd _ IH]; [reflexivity | ].
  cbn [comprehension map]. rewrite (held_product_dict rt d p Hd), IH.
  reflexivity.
Qed.

Lemma stored_dumps_list_back_witness :
  let stored :=
    ("_id", VObjectId "665f1c2e9b1d8a0012345678")
      :: AroniaProduct.model_dump AroniaProduct.default in
  fst (list_products Examples.sample_runtime (Examples.store_with [stored]))
  = Return (map AroniaProduct.model_dump [AroniaProduct.default]).
Proof.
  cbv zeta.
  apply (stored_dumps_list_back Examples.sample_runtime
           (Examples.store_with
              [("_id", VObjectId "665f1c2e9b1d8a0012345678")
                 :: AroniaProduct.model_dump AroniaProduct.default])
           [("_id", VObjectId "665f1c2e9b1d8a0012345678")
              :: AroniaProduct.model_dump AroniaProduct.default]
           [AroniaProduct.default]).
  - reflexivity.
  - discriminate.
  - repeat constructor.
Defined.

End Listing.

(** ** The products route and its response model *)

Module Routes.

Import Py Schemas Main Spec.

(** What the route [GET /api/products] comes to: the handler raised, or
    what it returned failed validation against [List[AroniaProduct]]
    (main.py, line 29), or the validated products are served. *)
Inductive served : Type :=
| HandlerRaised (e : exn)
| ResponseValidationError
| Served (products : list AroniaProduct.t).

Section ResponseModel.

Variable rt : runtime.

(** The validation library's lax reading, for a [bool] field, of a value
    that is not a bool. *)
Variable lax_bool_other : pyval -> option bool.

Definition lax_bool (v : pyval) : option bool :=
  match v with
  | VBool b => Some b
  | _ => lax_bool_other v
  end.

(** A [float] constrained by [ge]. *)
Definition float_ge (lo : float) (v : pyval) : option float :=
  match lax_float rt v with
  | Some f => if (lo <=? f)%float then Some f else None
  | None => None
  end.

(** An [int] constrained by [ge]. *)
Definition int_ge (lo : Z) (v : pyval) : option Z :=
  match lax_int rt v with
  | Some z => if lo <=? z then Some z else None
  | None => None
  end.

(** Validation of one returned element against [AroniaProduct]: every
    field has a default, taken when the key is absent. *)
Definition validate_product (v : pyval) : option AroniaProduct.t :=
  let default := AroniaProduct.default in
  match v with
  | VDict d =>
      match with_default lax_str d "title" (AroniaProduct.title default),
            with_default lax_str d "description" (AroniaProduct.description default),
            with_default (float_ge 0) d "price" (AroniaProduct.price default),
            with_default lax_str d "category" (AroniaProduct.category default),
            with_default lax_bool d "in_stock" (AroniaProduct.in_stock default),
            with_default optional_str d "image_url" (AroniaProduct.image_url default),
            with_default lax_str d "sku" (AroniaProduct.sku default),
            with_default (int_ge 50) d "volume_ml" (AroniaProduct.volume_ml default)
      with
      | Some t, Some d', Some p, Some c, Some s, Some u, Some k, Some v' =>
          Some (AroniaProduct.mk t d' p c s u k v')
      | _, _, _, _, _, _, _, _ => None
      end
  | _ => None
  end.

(** [List[AroniaProduct]]: every element validates. *)
Fixpoint validate_products (l : list dict) : option (list AroniaProduct.t) :=
  match l with
  | [] => Some []
  | d :: rest =>
      match validate_product (VDict d), validate_products rest with
      | Some p, Some ps => Some (p :: ps)
      | _, _ => None
      end
  end.

(** [@app.get("/api/products", response_model=List[AroniaProduct])] *)
Definition get_api_products (st : store) : served :=
  match fst (list_products rt st) with
  | Raise e => HandlerRaised e
  | Return items =>
      match validate_products items with
      | Some products => Served products
      | None => ResponseValidationError
      end
  end.

(** A dumped product validates back to itself when it keeps the
    constraints of its fields. *)
Lemma dumped_product_validates (p : AroniaProduct.t) :
  AroniaProduct.ok p = true ->
  validate_product (VDict (AroniaProduct.model_dump p)) = Some p.
Proof.
  destruct p as [t d price c s u k v]. unfold AroniaProduct.ok. cbn.
  intros Hok. apply andb_true_iff in Hok. destruct Hok as [Hp Hv].
  unfold validate_product, with_default, float_ge, int_ge. cbn.
  rewrite Hp, Hv. now destruct u.
Qed.

(** A validated product keeps the constraints of its fields. *)
Lemma validated_product_ok (v : pyval) (p : AroniaProduct.t) :
  validate_product v = Some p -> AroniaProduct.ok p = true.
Proof.
  destruct v as [| | | | | | d |]; try discriminate.
  unfold validate_product, with_default.
  destruct (match lookup "title" d with Some v => lax_str v | None => _ end);
    [| discriminate].
  destruct (match lookup "description" d with Some v => lax_str v | None => _ end);
    [| discriminate].
  destruct (match lookup "price" d with Some v => float_ge 0 v | None => _ end)
    as [price |] eqn:Hp; [| discriminate].
  destruct (match lookup "category" d with Some v => lax_str v | None => _ end);
    [| discriminate].
  destruct (match lookup "in_stock" d with Some v => lax_bool v | None => _ end);
    [| discriminate].
  destruct (match lookup "image_url" d with Some v => optional_str v | None => _ end);
    [| discriminate].
  destruct (match lookup "sku" d with Some v => lax_str v | None => _ end);
    [| discriminate].
  destruct (match lookup "volume_ml" d with Some v => int_ge 50 v | None => _ end)
    as [volume |] eqn:Hv; [| discriminate].
  intros [= <-]. unfold AroniaProduct.ok. cbn. apply andb_true_iff. split.
  - destruct (lookup "price" d) as [w |].
    + unfold float_ge in Hp. destruct (lax_float rt w) as [f |]; [| discriminate].
      destruct (0 <=? f)%float eqn:Hle; [| discriminate]. now injection Hp as <-.
    + now injection Hp as <-.
  - destruct (lookup "volume_ml" d) as [w |].
    + unfold int_ge in Hv. destruct (lax_int rt w) as [z |]; [| discriminate].
      destruct (50 <=? z) eqn:Hle; [| discriminate]. now injection Hv as <-.
    + now injection Hv as <-.
Qed.

Lemma validate_products_rejects (l : list dict) (d : dict) :
  In d l -> validate_product (VDict d) = None -> validate_products l = None.
Proof.
  induction l as [| d' rest IH]; [contradiction | ].
  intros [-> | Hin] Hd; cbn [validate_products].
  - now rewrite Hd.
  - rewrite (IH Hin Hd). now destruct (validate_product (VDict d')).
Qed.

Lemma validate_products_ok (l : list dict) (ps : list AroniaProduct.t) :
  validate_products l = Some ps ->
  Forall (fun p => AroniaProduct.ok p = true) ps.
Proof.
  revert ps. induction l as [| d rest IH]; intros ps; cbn [validate_products].
  - intros [= <-]. constructor.
  - destruct (validate_product (VDict d)) as [p |] eqn:Hd; [| discriminate].
    destruct (validate_products rest) as [ps' |]; [| discriminate].
    intros [= <-]. constructor; [now apply validated_product_ok in Hd | now apply IH].
Qed.

(** The text fields of [AroniaProduct] that are not optional. *)
Definition text_keys : list string := ["title"; "description"; "category"; "sku"].

(** The dict built for a stored document whose title, description,
    category or sku is not a string (the key is absent, say) fails
    validation. *)
Lemma product_dict_without_text (i p : dict) (key : string) :
  product_dict rt i = Return p ->
  In key text_keys ->
  (forall s, get i key <> VStr s) ->
  validate_product (VDict p) = None.
Proof.
  unfold product_dict.
  destruct (py_float rt (get_default i "price" (VInt 0))) as [price | e];
    [| discriminate].
  destruct (py_int rt (get_default i "volume_ml" (VInt 750))) as [n | e];
    [| discriminate].
  cbn [bind]. intros [= <-] Hkey Hnot.
  assert (Hnone : lax_str (get i key) = None).
  { destruct (get i key) eqn:Hg; try reflexivity. now destruct (Hnot s). }
  unfold validate_product, with_default. cbn [lookup String.eqb Ascii.eqb Bool.eqb].
  cbn.
  unfold text_keys in Hkey.
  destruct Hkey as [<- | [<- | [<- | [<- | []]]]]; rewrite Hnone;
    repeat match goal with
           | |- match ?x with _ => _ end = None => destruct x
           end; reflexivity.
Qed.

(** *** What the route serves *)

(** Whenever the query raises or finds nothing, the route serves the
    default product: the seeded dict passes the response model. *)
Theorem seeded_route_serves_default (st : store) :
  get_documents st "aroniaproduct" [] = Return []
  \/ (exists e, get_documents st "aroniaproduct" [] = Raise e) ->
  get_api_products st = Served [AroniaProduct.default].
Proof.
  intros Hq. unfold get_api_products.
  rewrite Catalogue.seeding_run
    by (destruct Hq as [Hq | [e Hq]]; now rewrite Hq).
  cbn [fst validate_products].
  now rewrite (dumped_product_validates AroniaProduct.default).
Qed.

(** A stored document without a string for its title, description,
    category or sku makes the route fail: the handler returns a dict
    with [None] at that key, and the response model rejects it. *)
Theorem missing_text_field_fails_response
    (st : store) (items : list dict) (i : dict) (key : string) :
  get_documents st "aroniaproduct" [] = Return items ->
  forallb (well_formed rt) items = true ->
  In i items ->
  In key text_keys ->
  (forall s, get i key <> VStr s) ->
  get_api_products st = ResponseValidationError.
Proof.
  intros Hq Hwf Hin Hkey Hnot. unfold get_api_products.
  assert (Hne : items <> []) by (destruct items; [contradiction | discriminate]).
  rewrite (Catalogue.listing_run rt st items Hq Hne). cbn [fst].
  apply Catalogue.forallb_well_formed, Catalogue.comprehension_returns in Hwf.
  destruct Hwf as [products Hps]. rewrite Hps.
  pose proof (Catalogue.comprehension_Forall2 _ _ _ Hps) as Hall.
  assert (Hex : exists p, In p products /\ product_dict rt i = Return p).
  { clear Hps Hq Hne. induction Hall as [| i' p' rest ps Hp _ IH];
      [contradiction | ].
    destruct Hin as [-> | Hin].
    - exists p'. split; [now left | exact Hp].
    - destruct (IH Hin) as [p [Hp1 Hp2]]. exists p. split; [now right | exact Hp2]. }
  destruct Hex as [p [Hp1 Hp2]].
  now rewrite (validate_products_rejects products p Hp1
                 (product_dict_without_text i p key Hp2 Hkey Hnot)).
Qed.

(** Whatever the route serves keeps the constraints of the model: every
    served product has a price of at least 0 and a volume of at least
    50. *)
Theorem served_products_keep_constraints
    (st : store) (products : list AroniaProduct.t) :
  get_api_products st = Served products ->
  Forall (fun p => AroniaProduct.ok p = true) products.
Proof.
  unfold get_api_products.
  destruct (fst (list_products rt st)) as [items | e]; [| discriminate].
  destruct (validate_products items) as [ps |] eqn:Hv; [| discriminate].
  intros [= <-]. now apply validate_products_ok in Hv.
Qed.

(** Products stored as their dumps are served back as they are, when
    they keep the constraints of the model. *)
Theorem stored_products_are_served_back
    (st : store) (docs : list dict) (ps : list AroniaProduct.t) :
  get_documents st "aroniaproduct" [] = Return docs ->
  docs <> [] ->
  Forall2 Listing.holds docs ps ->
  Forall (fun p => AroniaProduct.ok p = true) ps ->
  get_api_products st = Served ps.
Proof.
  intros Hq Hne Hall Hok. unfold get_api_products.
  rewrite (Catalogue.listing_run rt st docs Hq Hne). cbn [fst].
  assert (Hdumps : comprehension (product_dict rt) docs
                   = Return (map AroniaProduct.model_dump ps)).
  { clear Hq Hne Hok. induction Hall as [| d p docs ps Hd _ IH]; [reflexivity | ].
    cbn [comprehension map]. now rewrite (Listing.held_product_dict rt d p Hd), IH. }
  rewrite Hdumps. clear Hq Hne Hall Hdumps docs.
  induction Hok as [| p ps Hp _ IH]; [reflexivity | ].
  cbn [map validate_products]. rewrite (dumped_product_validates p Hp).
  destruct (validate_products (map AroniaProduct.model_dump ps)) as [ps' |];
    [| discriminate]. now injection IH as <-.
Qed.

End ResponseModel.

(** A reading of other values for a [bool] field, to run the route on:
    the ints 0 and 1. *)
Definition zero_one (v : pyval) : option bool :=
  match v with
  | VInt 0 => Some false
  | VInt 1 => Some true
  | _ => None
  end.

Lemma seeded_route_serves_default_witness :
  get_api_products Examples.sample_runtime zero_one Examples.down_store
  = Served [AroniaProduct.default].
Proof.
  apply (seeded_route_serves_default Examples.sample_runtime zero_one
           Examples.down_store).
  right. exists (Exception "Database not available"). reflexivity.
Defined.

Lemma missing_text_field_fails_response_witness :
  get_api_products Examples.sample_runtime zero_one
    (Examples.store_with [Examples.juice; Examples.syrup])
  = ResponseValidationError.
Proof.
  apply (missing_text_field_fails_response Examples.sample_runtime zero_one
           (Examples.store_with [Examples.juice; Examples.syrup])
           [Examples.juice; Examples.syrup] Examples.syrup "description").
  - reflexivity.
  - reflexivity.
  - right. left. reflexivity.
  - right. left. reflexivity.
  - intros s. discriminate.
Defined.

Lemma served_products_keep_constraints_witness :
  Forall (fun p => AroniaProduct.ok p = true)
    [ AroniaProduct.mk "Aronia Pure" "Juice" 13 "Beverages" true None
        "ARONIA-1L" 1000 ].
Proof.
  apply (served_products_keep_constraints Examples.sample_runtime zero_one
           (Examples.store_with [Examples.juice])).
  vm_compute. reflexivity.
Defined.

Lemma stored_products_are_served_back_witness :
  get_api_products Examples.sample_runtime zero_one
    (Examples.store_with
       [("_id", VObjectId "665f1c2e9b1d8a0012345678")
          :: AroniaProduct.model_dump AroniaProduct.default])
  = Served [AroniaProduct.default].
Proof.
  apply (stored_products_are_served_back Examples.sample_runtime zero_one _
           [("_id", VObjectId "665f1c2e9b1d8a0012345678")
              :: AroniaProduct.model_dump AroniaProduct.default]
           [AroniaProduct.default]).
  - reflexivity.
  - discriminate.
  - repeat constructor.
  - repeat constructor.
Defined.

End Routes.

(** ** The diagnostic route: [test_database] *)

Module Diagnostics.

Import Py Schemas Main.

(** A Python [str] is held as its UTF-8 bytes: a character is one byte
    that is not a continuation byte, followed by its continuation
    bytes. *)
Definition is_continuation (c : ascii) : bool :=
  let n := Z.of_nat (nat_of_ascii c) in (128 <=? n) && (n <? 192).

(** [len(s)]: the number of characters. *)
Fixpoint str_len (s : string) : nat :=
  match s with
  | EmptyString => 0
  | String c rest => (if is_continuation c then 0 else 1) + str_len rest
  end.

(** [s[:n]]: the first [n] characters. *)
Fixpoint str_prefix (n : nat) (s : string) : string :=
  match s with
  | EmptyString => EmptyString
  | String c rest =>
      if is_continuation c then String c (str_prefix n rest)
      else
        match n with
        | O => EmptyString
        | S n' => String c (str_prefix n' rest)
        end
  end.

(** What [_db.list_collection_names()] does: it returns the names, or
    raises an exception, seen through its [str()]. *)
Inductive listing : Type :=
| Listed (collections : list pyval)
| ListingRaised (message : string).

(** The [db] object of the database module: its [name] attribute, when
    it has one, and what listing its collections does. *)
Record database : Type := {
  name : option pyval;
  list_collection_names : listing
}.

(** What [from database import db] does: [ImportError], another
    exception seen through its [str()], or [db], which may be [None]. *)
Inductive import : Type :=
| ImportError
| ImportRaised (message : string)
| Imported (db : option database).

(** [os.getenv(key)] as a condition: set, and not the empty string. *)
Definition env_set (getenv : string -> option string) (key : string) : bool :=
  match getenv key with
  | Some value => negb (String.eqb value "")
  | None => false
  end.

(** [def test_database()] *)
Definition test_database (imported : import) (getenv : string -> option string)
  : dict :=
  let response :=
    [ ("backend", VStr "✅ Running");
      ("database", VStr "❌ Not Available");
      ("database_url", VNone);
      ("database_name", VNone);
      ("connection_status", VStr "Not Connected");
      ("collections", VList []) ] in
  let response :=
    match imported with
    | Imported (Some _db) =>
        let response := setitem response "database" (VStr "✅ Available") in
        let response := setitem response "database_url" (VStr "✅ Configured") in
        let response :=
          setitem response "database_name"
            (match name _db with
             | Some n => n
             | None => VStr "✅ Connected"
             end) in
        let response := setitem response "connection_status" (VStr "Connected") in
        match list_collection_names _db with
        | Listed collections =>
            let response :=
              setitem response "collections" (VList (firstn 10 collections)) in
            setitem response "database" (VStr "✅ Connected & Working")
        | ListingRaised message =>
            setitem response "database"
              (VStr ("⚠️  Connected but Error: " ++ str_prefix 50 message))
        end
    | Imported None =>
        setitem response "database" (VStr "⚠️  Available but not initialized")
    | ImportError =>
        setitem response "database"
          (VStr "❌ Database module not found (run enable-database first)")
    | ImportRaised message =>
        setitem response "database" (VStr ("❌ Error: " ++ str_prefix 50 message))
    end in
  let response :=
    setitem response "database_url"
      (VStr (if env_set getenv "DATABASE_URL" then "✅ Set" else "❌ Not Set")) in
  setitem response "database_name"
    (VStr (if env_set getenv "DATABASE_NAME" then "✅ Set" else "❌ Not Set")).

(** *** Slices *)

Lemma str_prefix_len (n : nat) (s : string) : (str_len (str_prefix n s) <= n)%nat.
Proof.
  revert n. induction s as [| c rest IH]; intros n; cbn.
  - lia.
  - destruct (is_continuation c) eqn:Hc; cbn.
    + rewrite Hc. cbn. apply IH.
    + destruct n as [| n']; cbn; [lia | ]. rewrite Hc. cbn.
      specialize (IH n'). lia.
Qed.

Lemma str_prefix_is_prefix (n : nat) (s : string) :
  exists rest, s = str_prefix n s ++ rest.
Proof.
  revert n. induction s as [| c rest IH]; intros n; cbn.
  - now exists "".
  - destruct (is_continuation c).
    + destruct (IH n) as [t Ht]. exists t. cbn. now rewrite <- Ht.
    + destruct n as [| n'].
      * now exists (String c rest).
      * destruct (IH n') as [t Ht]. exists t. cbn. now rewrite <- Ht.
Qed.

Lemma str_prefix_short (n : nat) (s : string) :
  (str_len s <= n)%nat -> str_prefix n s = s.
Proof.
  revert n. induction s as [| c rest IH]; intros n; cbn; [reflexivity | ].
  destruct (is_continuation c); cbn; intros Hlen.
  - now rewrite IH.
  - destruct n as [| n']; [lia | ]. rewrite IH; [reflexivity | lia].
Qed.

(** *** What the diagnostic shows *)

(** The keys of the diagnostic. *)
Definition diagnostic_keys : list string :=
  ["backend"; "database"; "database_url"; "database_name";
   "connection_status"; "collections"].

(** The [database_url] and [database_name] that [test_database] returns
    tell only whether the two environment variables are set to a
    non-empty string: what the function wrote there from the database
    object (its name included) is overwritten, whatever the import
    did. *)
Theorem env_fields_ignore_database
    (imported : import) (getenv : string -> option string) :
  lookup "database_url" (test_database imported getenv)
  = Some (VStr (if env_set getenv "DATABASE_URL" then "✅ Set" else "❌ Not Set"))
  /\ lookup "database_name" (test_database imported getenv)
     = Some (VStr (if env_set getenv "DATABASE_NAME" then "✅ Set" else "❌ Not Set")).
Proof.
  unfold test_database. cbv zeta. split.
  - rewrite Facts.lookup_setitem_other by discriminate.
    apply Facts.lookup_setitem_same.
  - apply Facts.lookup_setitem_same.
Qed.

(** The diagnostic always has the same six keys in the same order, says
    that the backend is running, and says "Connected" exactly when the
    import gave a database object that is not [None]. *)
Theorem diagnostic_shape
    (imported : import) (getenv : string -> option string) :
  map fst (test_database imported getenv) = diagnostic_keys
  /\ lookup "backend" (test_database imported getenv) = Some (VStr "✅ Running")
  /\ (lookup "connection_status" (test_database imported getenv)
       = Some (VStr "Connected")
      <-> exists db, imported = Imported (Some db)).
Proof.
  unfold test_database.
  destruct imported as [| message | [[db_name [collections | message]] |]];
    cbn; (split; [reflexivity | split; [reflexivity | ]]);
    (split; [intros H; try discriminate H; eauto | intros [db H]; try discriminate H;
             reflexivity]).
Qed.

(** The diagnostic lists at most ten collections: the first ten the
    database names, and none when the import failed, the database object
    is [None] or listing raised. *)
Theorem collections_at_most_ten
    (imported : import) (getenv : string -> option string) :
  exists shown,
    lookup "collections" (test_database imported getenv) = Some (VList shown)
    /\ (List.length shown <= 10)%nat
    /\ shown =
         match imported with
         | Imported (Some db) =>
             match list_collection_names db with
             | Listed collections => firstn 10 collections
             | ListingRaised _ => []
             end
         | _ => []
         end.
Proof.
  unfold test_database.
  destruct imported as [| message | [[db_name [collections | message]] |]];
    cbn -[firstn]; eexists; (split; [reflexivity | split; [| reflexivity]]);
    try (cbn; lia).
  apply firstn_le_length.
Qed.

(** When the import or the listing raises, the diagnostic shows the
    start of the exception's text: at most 50 characters of it, and all
    of it when it has no more than 50. *)
Theorem error_text_is_truncated
    (imported : import) (getenv : string -> option string) (message : string) :
  imported = ImportRaised message
  \/ (exists db,
        imported = Imported (Some db)
        /\ list_collection_names db = ListingRaised message) ->
  exists lead shown,
    lookup "database" (test_database imported getenv) = Some (VStr (lead ++ shown))
    /\ (lead = "❌ Error: " \/ lead = "⚠️  Connected but Error: ")
    /\ (str_len shown <= 50)%nat
    /\ (exists rest, message = shown ++ rest)
    /\ ((str_len message <= 50)%nat -> shown = message).
Proof.
  intros [-> | [[db_name l] [-> Hl]]].
  - exists "❌ Error: ", (str_prefix 50 message). split; [reflexivity | ].
    split; [now left | ]. split; [apply str_prefix_len | ].
    split; [apply str_prefix_is_prefix | apply str_prefix_short].
  - cbn in Hl. subst l.
    exists "⚠️  Connected but Error: ", (str_prefix 50 message).
    split; [reflexivity | ].
    split; [now right | ]. split; [apply str_prefix_len | ].
    split; [apply str_prefix_is_prefix | apply str_prefix_short].
Qed.

Lemma error_text_is_truncated_witness :
  let message :=
    "ServerSelectionTimeoutError: localhost:27017: [Errno 111] Connection refused" in
  exists lead shown,
    lookup "database"
      (test_database
         (Imported (Some {| name := Some (VStr "aronia");
                            list_collection_names := ListingRaised message |}))
         (fun _ => None))
    = Some (VStr (lead ++ shown))
    /\ (lead = "❌ Error: " \/ lead = "⚠️  Connected but Error: ")
    /\ (str_len shown <= 50)%nat
    /\ (exists rest, message = shown ++ rest)
    /\ ((str_len message <= 50)%nat -> shown = message).
Proof.
  cbv zeta.
  apply (error_text_is_truncated
           (Imported (Some {| name := Some (VStr "aronia");
                              list_collection_names :=
                                ListingRaised
                                  "ServerSelectionTimeoutError: localhost:27017: [Errno 111] Connection refused" |}))).
  right. eexists. split; reflexivity.
Defined.

End Diagnostics.

(** ** The example schemas: [User] and [Product] *)

Module ExampleSchemas.

Import Py Schemas.

(** [class User(BaseModel)] *)
Module User.

Record t : Type := mk {
  name : string;
  email : string;
  address : string;
  age : option Z;
  is_active : bool
}.

End User.

(** [class Product(BaseModel)] *)
Module Product.

Record t : Type := mk {
  title : string;
  description : option string;
  price : float;
  category : string;
  in_stock : bool;
  image_url : option string;
  sku : option string;
  volume_ml : option Z
}.

End Product.

Section Validation.

Variable rt : runtime.

Variable lax_bool_other : pyval -> option bool.

(** [Optional[int]] with the bounds [ge] and [le]: [None], or an int
    within them. *)
Definition optional_int_between (lo hi : Z) (v : pyval) : option (option Z) :=
  match v with
  | VNone => Some None
  | _ =>
      match int_between rt lo hi v with
      | Some z => Some (Some z)
      | None => None
      end
  end.

(** [Optional[int]] without bounds. *)
Definition optional_int (v : pyval) : option (option Z) :=
  match v with
  | VNone => Some None
  | _ =>
      match lax_int rt v with
      | Some z => Some (Some z)
      | None => None
      end
  end.

(** Validation of an input against [User]. *)
Definition validate_user (v : pyval) : option User.t :=
  match v with
  | VDict d =>
      match required lax_str d "name",
            required (email_str rt) d "email",
            required lax_str d "address",
            with_default (optional_int_between 0 120) d "age" None,
            with_default (Routes.lax_bool lax_bool_other) d "is_active" true with
      | Some n, Some e, Some a, Some g, Some b => Some (User.mk n e a g b)
      | _, _, _, _, _ => None
      end
  | _ => None
  end.

(** Validation of an input against [Product]. *)
Definition validate_product (v : pyval) : option Product.t :=
  match v with
  | VDict d =>
      match required lax_str d "title",
            with_default optional_str d "description" None,
            required (Routes.float_ge rt 0) d "price",
            required lax_str d "category",
            with_default (Routes.lax_bool lax_bool_other) d "in_stock" true,
            with_default optional_str d "image_url" None,
            with_default optional_str d "sku" None,
            with_default optional_int d "volume_ml" None with
      | Some t, Some d', Some p, Some c, Some s, Some u, Some k, Some v' =>
          Some (Product.mk t d' p c s u k v')
      | _, _, _, _, _, _, _, _ => None
      end
  | _ => None
  end.

(** A validated user has no age or an age between 0 and 120; an input
    without the key has no age. *)
Theorem validated_user_age (d : dict) (user : User.t) :
  validate_user (VDict d) = Some user ->
  match User.age user with
  | Some years => 0 <= years <= 120
  | None => True
  end
  /\ (lookup "age" d = None -> User.age user = None).
Proof.
  unfold validate_user, with_default.
  destruct (required lax_str d "name"); [| discriminate].
  destruct (required (email_str rt) d "email"); [| discriminate].
  destruct (required lax_str d "address"); [| discriminate].
  destruct (lookup "age" d) as [w |] eqn:Hage.
  - destruct (optional_int_between 0 120 w) as [g |] eqn:Hg; [| discriminate].
    destruct (match lookup "is_active" d with Some v => _ | None => _ end);
      [| discriminate].
    intros [= <-]. cbn. split; [| discriminate].
    unfold optional_int_between in Hg.
    destruct g as [years |]; [| exact I].
    destruct w; try discriminate;
      (destruct (int_between rt 0 120 _) as [found |] eqn:Hfound; [| discriminate];
       injection Hg as <-; exact (Checkout.int_between_range _ _ _ _ _ Hfound)).
  - destruct (match lookup "is_active" d with Some v => _ | None => _ end);
      [| discriminate].
    intros [= <-]. cbn. split; [exact I | reflexivity].
Qed.

(** A validated product has a price of at least 0: an input with a
    negative price does not validate against [Product]. *)
Theorem validated_product_price (v : pyval) (product : Product.t) :
  validate_product v = Some product ->
  (0 <=? Product.price product)%float = true.
Proof.
  destruct v as [| | | | | | d |]; try discriminate.
  unfold validate_product.
  destruct (required lax_str d "title"); [| discriminate].
  destruct (with_default optional_str d "description" None); [| discriminate].
  destruct (required (Routes.float_ge rt 0) d "price") as [p |] eqn:Hp;
    [| discriminate].
  destruct (required lax_str d "category"); [| discriminate].
  destruct (with_default (Routes.lax_bool lax_bool_other) d "in_stock" true);
    [| discriminate].
  destruct (with_default optional_str d "image_url" None); [| discriminate].
  destruct (with_default optional_str d "sku" None); [| discriminate].
  destruct (with_default optional_int d "volume_ml" None); [| discriminate].
  intros [= <-]. cbn. unfold required in Hp.
  destruct (lookup "price" d) as [w |]; [| discriminate].
  unfold Routes.float_ge in Hp. destruct (lax_float rt w) as [f |]; [| discriminate].
  destruct (0 <=? f)%float eqn:Hle; [| discriminate]. now injection Hp as <-.
Qed.

End Validation.

Lemma validated_user_age_witness :
  match User.age (User.mk "Ana" "ana@example.com" "1 Berry Lane" (Some 34) true) with
  | Some years => 0 <= years <= 120
  | None => True
  end
  /\ (lookup "age"
        [ ("name", VStr "Ana"); ("email", VStr "ana@example.com");
          ("address", VStr "1 Berry Lane"); ("age", VInt 34) ] = None ->
      User.age (User.mk "Ana" "ana@example.com" "1 Berry Lane" (Some 34) true)
      = None).
Proof.
  apply (validated_user_age Examples.sample_runtime Routes.zero_one
           [ ("name", VStr "Ana"); ("email", VStr "ana@example.com");
             ("address", VStr "1 Berry Lane"); ("age", VInt 34) ]).
  reflexivity.
Defined.

Lemma validated_product_price_witness :
  (0 <=? Product.price
           (Product.mk "Aronia Pure" None 12.90 "Beverages" true None None None))%float
  = true.
Proof.
  apply (validated_product_price Examples.sample_runtime Routes.zero_one
           (VDict [ ("title", VStr "Aronia Pure"); ("price", VFloat 12.90);
                    ("category", VStr "Beverages") ])).
  reflexivity.
Defined.

End ExampleSchemas.
